(** * Wherehous-connect: the stock ledger and the user table of [server.js]

    A shallow embedding of the Express handlers of [src/server.js] and of the
    two balance helpers they call.  The SQLite tables are lists of rows in
    rowid (insertion) order; every handler is a function from the request and
    the table to the response and the new table.

    Weights are JavaScript numbers.  The handlers are written once over the
    operations they use on them ([JsNumber]) and read at two arithmetics:
    [Binary64], the IEEE-754 doubles of the JavaScript engine, and [Exact],
    the rationals, where no addition rounds.  Identifiers and box counts are
    INTEGER columns and are integers here.

    Of the 500 branches only the one the UNIQUE constraint on [username]
    can take is modelled; the store is otherwise taken to answer. *)

From Stdlib Require Import ZArith QArith Qround Qabs Lqa Lia.
From Stdlib Require Import List String Ascii Bool Permutation DecimalString.
From Stdlib Require Import Floats.
Import ListNotations.

Set Warnings "-inexact-float".

Local Open Scope string_scope.
Local Open Scope list_scope.
Local Open Scope Z_scope.

(** ** JavaScript values *)

(** [ToBoolean] on a string: only the empty string is falsy. *)
Definition truthy_string (s : string) : bool :=
  negb (String.eqb s "").

(** [ToBoolean] on an integer-valued number: only 0 is falsy. *)
Definition truthy_int (z : Z) : bool :=
  negb (z =? 0).

(** [ToBoolean] on a field that may be absent ([undefined]) or [null]. *)
Definition truthy_opt {A : Type} (t : A -> bool) (o : option A) : bool :=
  match o with
  | Some a => t a
  | None => false
  end.

(** [`${n}`] for an integer-valued number. *)
Definition string_of_Z (z : Z) : string :=
  NilZero.string_of_int (Z.to_int z).

(** The arithmetic of JavaScript numbers that the server uses on weights.
    [js_int z] is the number denoted by the integer [z] (the literals 0, 1
    and -1, and a box count entering a product with a unit weight). *)
Class JsNumber : Type := {
  num : Type;
  js_int : Z -> num;
  js_add : num -> num -> num;
  js_sub : num -> num -> num;
  js_mul : num -> num -> num;
  js_lt : num -> num -> bool;
  js_eq : num -> num -> bool
}.

Declare Scope js_scope.
Delimit Scope js_scope with js.
Infix "+" := js_add : js_scope.
Infix "-" := js_sub : js_scope.
Infix "*" := js_mul : js_scope.
Infix "<" := js_lt : js_scope.
Notation "x > y" := (js_lt y x) : js_scope.
Infix "===" := js_eq (at level 70, no associativity) : js_scope.

(** [ToBoolean] on a number: +0, -0 and NaN are falsy.  NaN is the only
    number that is not [===] to itself. *)
Definition truthy_num {N : JsNumber} (x : num) : bool :=
  negb (x === js_int 0)%js && (x === x)%js.

(** [x || 0] on an optional number. *)
Definition or_zero {N : JsNumber} (o : option num) : num :=
  match o with
  | Some x => if truthy_num x then x else js_int 0
  | None => js_int 0
  end.

(** [n || 0] on an optional integer box count. *)
Definition or_zero_int (o : option Z) : Z :=
  match o with
  | Some n => if truthy_int n then n else 0
  | None => 0
  end.

(** Numbers as IEEE-754 binary64 values, which is what the server runs on. *)
Definition binary64_of_Z (z : Z) : float :=
  SF2Prim (binary_normalize prec emax z 0 false).

#[global] Instance Binary64 : JsNumber := {|
  num := float;
  js_int := binary64_of_Z;
  js_add := PrimFloat.add;
  js_sub := PrimFloat.sub;
  js_mul := PrimFloat.mul;
  js_lt := PrimFloat.ltb;
  js_eq := PrimFloat.eqb
|}.

(** Numbers as exact rationals: the arithmetic without rounding. *)
Definition Qltb (x y : Q) : bool := negb (Qle_bool y x).

#[global] Instance Exact : JsNumber := {|
  num := Q;
  js_int := inject_Z;
  js_add := Qplus;
  js_sub := Qminus;
  js_mul := Qmult;
  js_lt := Qltb;
  js_eq := Qeq_bool
|}.

(** The order law the boundary cases rest on: a number is not strictly
    below a number it is [===] to. *)
Definition lt_irreflexive (N : JsNumber) : Prop :=
  forall x y : num, (x === y)%js = true -> (y < x)%js = false.

(** Library calls whose code is not part of the repository:
    [Number.prototype.toFixed(2)] and [String.prototype.trim]. *)
Class Runtime (N : JsNumber) : Type := {
  toFixed2 : num -> string;
  trim : string -> string
}.

(** ** The [stockMovements] table *)

Section Ledger.

Context {N : JsNumber}.

(** A row of [stockMovements].  Nullable columns are options; INTEGER
    columns are [Z], REAL columns are numbers. *)
Record movement : Type := {
  id : Z;
  clientId : Z;
  type : string;
  product : string;
  totalWeight : num;
  plasticBoxCount : option Z;
  plasticBoxWeight : option num;
  woodBoxCount : option Z;
  woodBoxWeight : option num;
  productWeight : num;
  date : string;
  recordedByUserId : Z;
  comment : option string;
  farmerComment : option string;
  isCommentRead : option bool
}.

(** [movement.type === 'in' ? 1 : -1] *)
Definition multiplier (t : string) : Z :=
  if String.eqb t "in" then 1 else -1.

Record summary : Type := {
  sum_totalWeight : num;
  sum_productWeight : num;
  plasticBoxes : Z;
  woodBoxes : Z
}.

(** [if (count) { boxes += count * multiplier; }]: a box count that is
    NULL or 0 is skipped. *)
Definition add_boxes (boxes : Z) (count : option Z) (mult : Z) : Z :=
  match count with
  | Some n => if truthy_int n then boxes + n * mult else boxes
  | None => boxes
  end.

(** The body of the [forEach] of [getClientStockSummary]: one row added to
    the running summary. *)
Definition summary_step (s : summary) (m : movement) : summary :=
  {| sum_totalWeight := (sum_totalWeight s + totalWeight m * js_int (multiplier (type m)))%js;
     sum_productWeight := (sum_productWeight s + productWeight m * js_int (multiplier (type m)))%js;
     plasticBoxes := add_boxes (plasticBoxes s) (plasticBoxCount m) (multiplier (type m));
     woodBoxes := add_boxes (woodBoxes s) (woodBoxCount m) (multiplier (type m)) |}.

(** [SELECT * FROM stockMovements WHERE clientId = ?] *)
Definition select_client (c : Z) (stockMovements : list movement) : list movement :=
  filter (fun m => clientId m =? c) stockMovements.

(** [SELECT type, productWeight FROM stockMovements WHERE clientId = ? AND
    product = ?]; SQLite compares TEXT byte by byte. *)
Definition select_client_product (c : Z) (p : string)
    (stockMovements : list movement) : list movement :=
  filter (fun m => (clientId m =? c) && String.eqb (product m) p) stockMovements.

Definition getClientStockSummary (c : Z) (stockMovements : list movement) : summary :=
  fold_left summary_step (select_client c stockMovements)
    {| sum_totalWeight := js_int 0; sum_productWeight := js_int 0;
       plasticBoxes := 0; woodBoxes := 0 |}.

Definition getProductStockForClient (c : Z) (p : string)
    (stockMovements : list movement) : num :=
  fold_left (fun acc m => (acc + productWeight m * js_int (multiplier (type m)))%js)
    (select_client_product c p stockMovements) (js_int 0).

End Ledger.

Arguments movement : clear implicits.
Arguments summary : clear implicits.

(** ** HTTP responses *)

Inductive payload (A : Type) : Type :=
| Message (message : string)
| Json (row : A)
| Empty.

Arguments Message {A} message.
Arguments Json {A} row.
Arguments Empty {A}.

Record response (A : Type) : Type := {
  http_status : Z;
  http_body : payload A
}.

Arguments http_status {A} r.
Arguments http_body {A} r.

(** [res.status(code).json({ message })] *)
Definition reply {A : Type} (code : Z) (message : string) : response A :=
  {| http_status := code; http_body := Message message |}.

(** ** POST /api/movements *)

Section Movements.

Context {N : JsNumber} {R : Runtime N}.

(** The JSON body of the request; [None] is an absent or [null] field. *)
Record movement_body : Type := {
  req_clientId : option Z;
  req_type : option string;
  req_product : option string;
  req_totalWeight : option num;
  req_plasticBoxCount : option Z;
  req_plasticBoxWeight : option num;
  req_woodBoxCount : option Z;
  req_woodBoxWeight : option num;
  req_recordedByUserId : option Z;
  req_comment : option string
}.

Definition missing_fields_message : string :=
  "Missing required fields for movement.".

Definition negative_weight_message : string :=
  "Le poids net du produit est négatif. Vérifiez le poids total et les détails des box.".

Definition insufficient_product_message (available requested : num) : string :=
  ("Stock de produit net insuffisant. Stock disponible: " ++ toFixed2 available
   ++ " kg. Sortie demandée: " ++ toFixed2 requested ++ " kg.")%string.

Definition insufficient_plastic_message (available requested : Z) : string :=
  ("Stock de box en plastique insuffisant. Box disponibles: " ++ string_of_Z available
   ++ ". Sortie demandée: " ++ string_of_Z requested ++ ".")%string.

Definition insufficient_wood_message (available requested : Z) : string :=
  ("Stock de box en bois insuffisant. Box disponibles: " ++ string_of_Z available
   ++ ". Sortie demandée: " ++ string_of_Z requested ++ ".")%string.

(** [totalWeight - (pBoxCount * pBoxWeight) - (wBoxCount * wBoxWeight)] *)
Definition net_weight (totalWeight : num) (pBoxCount : Z) (pBoxWeight : num)
    (wBoxCount : Z) (wBoxWeight : num) : num :=
  (totalWeight - js_int pBoxCount * pBoxWeight - js_int wBoxCount * wBoxWeight)%js.

(** The [if (type === 'out')] block: [Some] is the 400 reply of the first
    check that fails, [None] lets the request through. *)
Definition check_stock (c : Z) (t p : string) (weight : num) (pBoxCount wBoxCount : Z)
    (stockMovements : list (movement N)) : option (response (movement N)) :=
  if String.eqb t "out" then
    let availableProductStock := getProductStockForClient c p stockMovements in
    if (weight > availableProductStock)%js then
      Some (reply 400 (insufficient_product_message availableProductStock weight))
    else
      let clientStock := getClientStockSummary c stockMovements in
      if pBoxCount >? plasticBoxes clientStock then
        Some (reply 400 (insufficient_plastic_message (plasticBoxes clientStock) pBoxCount))
      else if wBoxCount >? woodBoxes clientStock then
        Some (reply 400 (insufficient_wood_message (woodBoxes clientStock) wBoxCount))
      else None
  else None.

(** [this.lastID]: SQLite gives a new row one more than the largest rowid
    in the table (rows of this table are never deleted). *)
Definition lastID (stockMovements : list (movement N)) : Z :=
  fold_right Z.max 0 (map id stockMovements) + 1.

(** [comment?.trim() ? comment.trim() : null] *)
Definition stored_comment (c : option string) : option string :=
  match c with
  | Some s => if truthy_string (trim s) then Some (trim s) else None
  | None => None
  end.

(** The guard [if (!clientId || !type || !product || !totalWeight ||
    !recordedByUserId)]: the five required fields when each is truthy. *)
Definition required_fields (b : movement_body)
    : option (Z * string * string * num * Z) :=
  match req_clientId b, req_type b, req_product b, req_totalWeight b,
        req_recordedByUserId b with
  | Some c, Some t, Some p, Some w, Some u =>
      if negb (truthy_int c) || negb (truthy_string t) || negb (truthy_string p)
         || negb (truthy_num w) || negb (truthy_int u)
      then None
      else Some (c, t, p, w, u)
  | _, _, _, _, _ => None
  end.

(** [productWeight] as the handler derives it from the body. *)
Definition derived_weight (b : movement_body) (w : num) : num :=
  net_weight w
    (or_zero_int (req_plasticBoxCount b)) (or_zero (req_plasticBoxWeight b))
    (or_zero_int (req_woodBoxCount b)) (or_zero (req_woodBoxWeight b)).

(** The parameters of the INSERT as a row; [farmerComment] and
    [isCommentRead] are not in the column list and stay NULL. *)
Definition new_row (today : string) (b : movement_body) (c : Z) (t p : string)
    (w : num) (u : Z) (stockMovements : list (movement N)) : movement N :=
  let pBoxCount := or_zero_int (req_plasticBoxCount b) in
  let pBoxWeight := or_zero (req_plasticBoxWeight b) in
  let wBoxCount := or_zero_int (req_woodBoxCount b) in
  let wBoxWeight := or_zero (req_woodBoxWeight b) in
  {| id := lastID stockMovements;
     clientId := c;
     type := t;
     product := p;
     totalWeight := w;
     plasticBoxCount := if pBoxCount >? 0 then Some pBoxCount else None;
     plasticBoxWeight := if pBoxCount >? 0 then Some pBoxWeight else None;
     woodBoxCount := if wBoxCount >? 0 then Some wBoxCount else None;
     woodBoxWeight := if wBoxCount >? 0 then Some wBoxWeight else None;
     productWeight := derived_weight b w;
     date := today;
     recordedByUserId := u;
     comment := stored_comment (req_comment b);
     farmerComment := None;
     isCommentRead := None |}.

(** The handler.  [today] is [new Date().toISOString().split('T')[0]]. *)
Definition post_movement (today : string) (b : movement_body)
    (stockMovements : list (movement N))
    : response (movement N) * list (movement N) :=
  match required_fields b with
  | None => (reply 400 missing_fields_message, stockMovements)
  | Some (c, t, p, w, u) =>
      let productWeight := derived_weight b w in
      if (productWeight < js_int 0)%js then
        (reply 400 negative_weight_message, stockMovements)
      else
        match check_stock c t p productWeight
                (or_zero_int (req_plasticBoxCount b))
                (or_zero_int (req_woodBoxCount b)) stockMovements with
        | Some rejection => (rejection, stockMovements)
        | None =>
            let row := new_row today b c t p w u stockMovements in
            ({| http_status := 201; http_body := Json row |},
             stockMovements ++ [row])
        end
  end.

(** The ledger after a list of requests, each with the date it arrives on,
    handled one after the other. *)
Definition run (requests : list (string * movement_body))
    (stockMovements : list (movement N)) : list (movement N) :=
  fold_left (fun ledger request => snd (post_movement (fst request) (snd request) ledger))
    requests stockMovements.

(** ** PATCH /api/movements/:id *)

(** The body; [typeof farmerComment === 'string'] and [typeof isCommentRead
    === 'boolean'] are [Some], anything else is [None]. *)
Record patch_body : Type := {
  patch_farmerComment : option string;
  patch_isCommentRead : option bool
}.

(** One ["column = ?"] of the SET list with its bound parameter. *)
Inductive assignment : Type :=
| SetFarmerComment (value : string)
| SetIsCommentRead (value : bool).

Definition assign (m : movement N) (a : assignment) : movement N :=
  match a with
  | SetFarmerComment s =>
      {| id := id m; clientId := clientId m; type := type m; product := product m;
         totalWeight := totalWeight m;
         plasticBoxCount := plasticBoxCount m; plasticBoxWeight := plasticBoxWeight m;
         woodBoxCount := woodBoxCount m; woodBoxWeight := woodBoxWeight m;
         productWeight := productWeight m; date := date m;
         recordedByUserId := recordedByUserId m; comment := comment m;
         farmerComment := Some s; isCommentRead := isCommentRead m |}
  | SetIsCommentRead r =>
      {| id := id m; clientId := clientId m; type := type m; product := product m;
         totalWeight := totalWeight m;
         plasticBoxCount := plasticBoxCount m; plasticBoxWeight := plasticBoxWeight m;
         woodBoxCount := woodBoxCount m; woodBoxWeight := woodBoxWeight m;
         productWeight := productWeight m; date := date m;
         recordedByUserId := recordedByUserId m; comment := comment m;
         farmerComment := farmerComment m; isCommentRead := Some r |}
  end.

(** [UPDATE stockMovements SET ... WHERE id = ?].  When a column is named
    more than once in a SET list SQLite keeps its rightmost assignment,
    which is what assigning from left to right gives.  The first component
    is [this.changes]. *)
Definition update_movement (updates : list assignment) (movementId : Z)
    (stockMovements : list (movement N)) : Z * list (movement N) :=
  (Z.of_nat (List.length (filter (fun m => id m =? movementId) stockMovements)),
   map (fun m => if id m =? movementId then fold_left assign updates m else m)
     stockMovements).

(** [{ ...row, isCommentRead: !!row.isCommentRead }] *)
Definition with_boolean_flag (m : movement N) : movement N :=
  assign m (SetIsCommentRead (match isCommentRead m with Some r => r | None => false end)).

Definition patch_updates (b : patch_body) : list assignment :=
  (match patch_farmerComment b with
   | Some s => [SetFarmerComment s; SetIsCommentRead false]
   | None => []
   end)
  ++
  (match patch_isCommentRead b with
   | Some r => [SetIsCommentRead r]
   | None => []
   end).

Definition patch_movement (movementId : Z) (b : patch_body)
    (stockMovements : list (movement N))
    : response (movement N) * list (movement N) :=
  let updates := patch_updates b in
  if Z.of_nat (List.length updates) =? 0 then
    (reply 400 "No fields to update", stockMovements)
  else
    let (changes, stored) := update_movement updates movementId stockMovements in
    if changes =? 0 then (reply 404 "Movement not found.", stored)
    else
      match find (fun m => id m =? movementId) stored with
      | Some row => ({| http_status := 200; http_body := Json (with_boolean_flag row) |}, stored)
      | None => (reply 404 "Movement not found.", stored) (* not reached: a row was changed *)
      end.

End Movements.

Arguments movement_body : clear implicits.

(** ** The [users] table *)

Module Users.

(** A row of [users]; [clientId] is nullable. *)
Record user : Type := {
  id : Z;
  username : string;
  name : string;
  role : string;
  status : string;
  password : string;
  clientId : option Z
}.

(** [SELECT id, username, name, role, status, clientId FROM users]: the row
    as the API returns it, without the password hash. *)
Record listed_user : Type := {
  listed_id : Z;
  listed_username : string;
  listed_name : string;
  listed_role : string;
  listed_status : string;
  listed_clientId : option Z
}.

Definition listed (u : user) : listed_user :=
  {| listed_id := id u; listed_username := username u; listed_name := name u;
     listed_role := role u; listed_status := status u;
     listed_clientId := clientId u |}.

(** The JSON body of [PUT /api/users/:id]; [None] is an absent field. *)
Record user_body : Type := {
  put_name : option string;
  put_username : option string;
  put_role : option string;
  put_clientId : option Z;
  put_password : option string;
  put_status : option string
}.

(** One ["column = ?"] of the SET list with its bound parameter. *)
Inductive assignment : Type :=
| SetName (value : string)
| SetUsername (value : string)
| SetRole (value : string)
| SetStatus (value : string)
| SetClientId (value : option Z)
| SetPassword (value : string).

Definition assign (u : user) (a : assignment) : user :=
  match a with
  | SetName v =>
      {| id := id u; username := username u; name := v; role := role u;
         status := status u; password := password u; clientId := clientId u |}
  | SetUsername v =>
      {| id := id u; username := v; name := name u; role := role u;
         status := status u; password := password u; clientId := clientId u |}
  | SetRole v =>
      {| id := id u; username := username u; name := name u; role := v;
         status := status u; password := password u; clientId := clientId u |}
  | SetStatus v =>
      {| id := id u; username := username u; name := name u; role := role u;
         status := v; password := password u; clientId := clientId u |}
  | SetClientId v =>
      {| id := id u; username := username u; name := name u; role := role u;
         status := status u; password := password u; clientId := v |}
  | SetPassword v =>
      {| id := id u; username := username u; name := name u; role := role u;
         status := status u; password := v; clientId := clientId u |}
  end.

(** [if (field) { updates.push("column = ?"); params.push(field); }] *)
Definition push_if (field : option string) (column : string -> assignment)
    : list assignment :=
  match field with
  | Some v => if truthy_string v then [column v] else []
  | None => []
  end.

(** [role === 'Agriculteur' ? clientId : null]; an [undefined] parameter is
    bound as NULL. *)
Definition clientId_param (b : user_body) : option Z :=
  match put_role b with
  | Some r => if String.eqb r "Agriculteur" then put_clientId b else None
  | None => None
  end.

(** The SET list in the order the handler pushes it.  [bcrypt_hash] is
    [bcrypt.hash(_, saltRounds)] as it comes out for this request. *)
Definition put_updates (bcrypt_hash : string -> string) (b : user_body)
    : list assignment :=
  push_if (put_name b) SetName
  ++ push_if (put_username b) SetUsername
  ++ push_if (put_role b) SetRole
  ++ push_if (put_status b) SetStatus
  ++ [SetClientId (clientId_param b)]
  ++ push_if (put_password b) (fun v => SetPassword (bcrypt_hash v)).

(** [username TEXT NOT NULL UNIQUE]: the statement fails when a row it
    changes would carry the username of a row it leaves alone. *)
Definition violates_unique (updates : list assignment) (userId : Z)
    (users : list user) : bool :=
  existsb (fun u =>
    (id u =? userId)
    && existsb (fun v =>
         negb (id v =? userId)
         && String.eqb (username v) (username (fold_left assign updates u)))
       users)
    users.

(** [UPDATE users SET ... WHERE id = ?] with [this.changes]. *)
Definition update_user (updates : list assignment) (userId : Z)
    (users : list user) : Z * list user :=
  (Z.of_nat (List.length (filter (fun u => id u =? userId) users)),
   map (fun u => if id u =? userId then fold_left assign updates u else u) users).

Definition put_user (bcrypt_hash : string -> string) (userId : Z) (b : user_body)
    (users : list user) : response listed_user * list user :=
  let updates := put_updates bcrypt_hash b in
  if Z.of_nat (List.length updates) =? 0 then
    (reply 400 "No fields to update.", users)
  else if violates_unique updates userId users then
    (reply 500 "Database error", users)
  else
    let (changes, stored) := update_user updates userId users in
    if changes =? 0 then (reply 404 "User not found.", stored)
    else
      match find (fun u => id u =? userId) stored with
      | Some row => ({| http_status := 200; http_body := Json (listed row) |}, stored)
      | None => (reply 404 "User not found.", stored) (* not reached: a row was changed *)
      end.

(** [DELETE /api/users/:id] *)
Definition delete_user (userId : Z) (users : list user)
    : response listed_user * list user :=
  match find (fun u => id u =? userId) users with
  | None => (reply 404 "User not found", users)
  | Some user =>
      if String.eqb (role user) "Admin" then
        (reply 403 "Cannot delete an admin user.", users)
      else
        ({| http_status := 204; http_body := Empty |},
         filter (fun u => negb (id u =? userId)) users)
  end.

End Users.

(** ** A runtime for the exact numbers *)

(** Decimal digits of a natural number, at least three of them. *)
Definition three_digits (n : Z) : string :=
  let s := string_of_Z n in
  match String.length s with
  | 1%nat => "00" ++ s
  | 2%nat => "0" ++ s
  | _ => s
  end%string.

(** [x.toFixed(2)] on an exact number: the integer nearest to 100|x|, ties
    upwards, with a point before its last two digits (the form JavaScript
    uses below 10^21). *)
Definition toFixed2_exact (x : Q) : string :=
  let n := Qfloor (Qabs x * 100 + (1 # 2))%Q in
  let s := three_digits n in
  let k := (String.length s - 2)%nat in
  ((if Qltb x 0 then "-" else "") ++ substring 0 k s ++ "." ++ substring k 2 s)%string.

Definition is_space (c : ascii) : bool :=
  match c with
  | " "%char | "009"%char | "010"%char | "011"%char | "012"%char | "013"%char => true
  | _ => false
  end.

Fixpoint trim_start (s : string) : string :=
  match s with
  | String c rest => if is_space c then trim_start rest else s
  | EmptyString => EmptyString
  end.

Fixpoint trim_end (s : string) : string :=
  match s with
  | String c rest =>
      match trim_end rest with
      | EmptyString => if is_space c then EmptyString else String c EmptyString
      | kept => String c kept
      end
  | EmptyString => EmptyString
  end.

(** [trim] on the ASCII white space. *)
Definition trim_ascii (s : string) : string := trim_end (trim_start s).

#[global] Instance ExactRuntime : Runtime Exact := {|
  toFixed2 := toFixed2_exact;
  trim := trim_ascii
|}.

(** ** A runtime for the doubles *)

(** The rational that a finite double stands for: its mantissa times a
    power of 2, with its sign. *)
Definition Q_of_binary64 (x : float) : Q :=
  match Prim2SF x with
  | S754_finite s m e =>
      let magnitude :=
        if 0 <=? e then inject_Z (Zpos m * 2 ^ e) else Zpos m # Z.to_pos (2 ^ (- e)) in
      if s then Qopp magnitude else magnitude
  | _ => 0%Q
  end.

(** [x.toFixed(2)] on a double.  The digits are those of the exact value
    of the double, as computed for the exact numbers; NaN and the
    infinities print their names.  (From 10^21 on JavaScript prints
    [String(x)], with an exponent, which is not reproduced here.) *)
Definition toFixed2_binary64 (x : float) : string :=
  match Prim2SF x with
  | S754_nan => "NaN"
  | S754_infinity s => if s then "-Infinity" else "Infinity"
  | _ => toFixed2_exact (Q_of_binary64 x)
  end.

#[global] Instance Binary64Runtime : Runtime Binary64 :=
  @Build_Runtime Binary64 toFixed2_binary64 trim_ascii.

(** ** The sums of the specification *)

Section Sums.

Context {N : JsNumber}.

(** The sum of a list of numbers in list order: the terms are added one
    after the other to a total that starts at 0. *)
Definition sigma (terms : list num) : num :=
  fold_left js_add terms (js_int 0).

(** The sum of a list of integers. *)
Definition sigma_int (terms : list Z) : Z :=
  fold_right Z.add 0 terms.

(** A missing box count counts as 0. *)
Definition count_or_zero (count : option Z) : Z :=
  match count with
  | Some n => n
  | None => 0
  end.

(** The rows of a client, and of a client and a product, by equality of
    the fields. *)
Definition rows_of_client (c : Z) (rows : list (movement N)) : list (movement N) :=
  filter (fun m => if Z.eq_dec (clientId m) c then true else false) rows.

Definition rows_of_product (c : Z) (p : string) (rows : list (movement N))
    : list (movement N) :=
  filter (fun m => if Z.eq_dec (clientId m) c
                   then if string_dec (product m) p then true else false
                   else false) rows.

End Sums.





(** ** Sample ledgers *)

(** A row without boxes, as the handler stores a request that names none:
    the net weight is the gross weight. *)
Definition plain_row {N : JsNumber} (i c : Z) (t p : string) (w : num) : movement N :=
  {| id := i; clientId := c; type := t; product := p; totalWeight := w;
     plasticBoxCount := None; plasticBoxWeight := None;
     woodBoxCount := None; woodBoxWeight := None;
     productWeight := w; date := "2024-05-01"; recordedByUserId := 1;
     comment := None; farmerComment := None; isCommentRead := None |}.

(** Three deposits of 0.1, 0.2 and 0.3 kg with their weights as doubles
    (the scale form of the client has a step of 0.1), and as fractions. *)
Definition deposits_binary64 : list (movement Binary64) :=
  [ plain_row (N := Binary64) 1 1 "in" "Pommes" 0.1%float;
    plain_row (N := Binary64) 2 1 "in" "Pommes" 0.2%float;
    plain_row (N := Binary64) 3 1 "in" "Pommes" 0.3%float ].

Definition deposits_exact : list (movement Exact) :=
  [ plain_row (N := Exact) 1 1 "in" "Pommes" (1 # 10)%Q;
    plain_row (N := Exact) 2 1 "in" "Pommes" (2 # 10)%Q;
    plain_row (N := Exact) 3 1 "in" "Pommes" (3 # 10)%Q ].

(** The requests of the worked example: a deposit of 100 kg gross in two
    plastic boxes of 5 kg, then withdrawals of 90 kg and of 91 kg. *)
Definition deposit_100 : movement_body Exact :=
  {| req_clientId := Some 1; req_type := Some "in"; req_product := Some "Pommes";
     req_totalWeight := Some 100%Q;
     req_plasticBoxCount := Some 2; req_plasticBoxWeight := Some 5%Q;
     req_woodBoxCount := None; req_woodBoxWeight := None;
     req_recordedByUserId := Some 1; req_comment := None |}.

Definition withdrawal (kg : Q) : movement_body Exact :=
  {| req_clientId := Some 1; req_type := Some "out"; req_product := Some "Pommes";
     req_totalWeight := Some kg;
     req_plasticBoxCount := None; req_plasticBoxWeight := None;
     req_woodBoxCount := None; req_woodBoxWeight := None;
     req_recordedByUserId := Some 1; req_comment := None |}.

Definition ledger_90 : list (movement Exact) :=
  run [("2024-05-01", deposit_100)] [].



(** A withdrawal of 30 kg gross in boxes of 5 kg, against the same
    ledger, which holds two plastic boxes and no wood box. *)
Definition withdrawal_in_boxes (plastic wood : option Z) : movement_body Exact :=
  {| req_clientId := Some 1; req_type := Some "out"; req_product := Some "Pommes";
     req_totalWeight := Some 30%Q;
     req_plasticBoxCount := plastic; req_plasticBoxWeight := Some 5%Q;
     req_woodBoxCount := wood; req_woodBoxWeight := Some 5%Q;
     req_recordedByUserId := Some 1; req_comment := None |}.

(** Requests without boxes whose weights are doubles: the ledger after a
    deposit of 90 kg; a deposit of 0.3 kg and withdrawals of 0.1 kg and
    0.2 kg; a deposit and a withdrawal of an infinite weight (the JSON
    number [1e999] is read as [Infinity]). *)
Definition weighed (t : string) (kg : float) : movement_body Binary64 :=
  {| req_clientId := Some 1; req_type := Some t; req_product := Some "Pommes";
     req_totalWeight := Some (kg : @num Binary64);
     req_plasticBoxCount := None; req_plasticBoxWeight := None;
     req_woodBoxCount := None; req_woodBoxWeight := None;
     req_recordedByUserId := Some 1; req_comment := None |}.

Definition ledger_90_binary64 : list (movement Binary64) :=
  run [("2024-05-01", weighed "in" 90%float)] [].



(** A movement whose anomaly comment the receptionist has already read,
    and a patch that carries a new comment together with a read flag. *)
Definition acknowledged : movement Exact :=
  {| id := 1; clientId := 1; type := "in"; product := "Pommes"; totalWeight := 100%Q;
     plasticBoxCount := Some 2; plasticBoxWeight := Some 5%Q;
     woodBoxCount := None; woodBoxWeight := None;
     productWeight := 90%Q; date := "2024-05-01"; recordedByUserId := 1;
     comment := None; farmerComment := Some "Il manque une caisse";
     isCommentRead := Some true |}.

Definition comment_and_flag : patch_body :=
  {| patch_farmerComment := Some "Poids incorrect"; patch_isCommentRead := Some true |}.

(** An administrator and a farmer linked to client 5, and the body the
    client sends to suspend a user. *)
Definition sample_users : list Users.user :=
  [ {| Users.id := 1; Users.username := "admin"; Users.name := "Alice Durand";
       Users.role := "Admin"; Users.status := "Active";
       Users.password := "$2b$10$admin"; Users.clientId := None |};
    {| Users.id := 2; Users.username := "bruno"; Users.name := "Bruno Petit";
       Users.role := "Agriculteur"; Users.status := "Active";
       Users.password := "$2b$10$bruno"; Users.clientId := Some 5 |} ].

Definition suspend_only : Users.user_body :=
  {| Users.put_name := None; Users.put_username := None; Users.put_role := None;
     Users.put_clientId := None; Users.put_password := None;
     Users.put_status := Some "Suspended" |}.

(** ** GET /api/movements *)

(** [rows.map(m => ({ ...m, isCommentRead: !!m.isCommentRead }))]: the
    rows as the API lists them, the flag a boolean. *)
Definition get_movements {N : JsNumber} (stockMovements : list (movement N))
    : list (movement N) :=
  map with_boolean_flag stockMovements.

(** Two rows that agree on every column a PATCH has no assignment for. *)
Definition same_entry {N : JsNumber} (m m' : movement N) : Prop :=
  id m' = id m /\ clientId m' = clientId m /\ type m' = type m
  /\ product m' = product m /\ totalWeight m' = totalWeight m
  /\ plasticBoxCount m' = plasticBoxCount m /\ plasticBoxWeight m' = plasticBoxWeight m
  /\ woodBoxCount m' = woodBoxCount m /\ woodBoxWeight m' = woodBoxWeight m
  /\ productWeight m' = productWeight m /\ date m' = date m
  /\ recordedByUserId m' = recordedByUserId m /\ comment m' = comment m.

(** ** The browser side of the ledger ([index.tsx]) *)

Module Client.

Section Cache.

Context {N : JsNumber}.

(** The literal [0.005] and [String.prototype.localeCompare], which the
    browser supplies. *)
Variable near_zero : num.
Variable localeCompare : string -> string -> Z.

(** The body of the [forEach] of the browser's [getClientStockSummary]: the
    rows of other clients are passed over inside the loop. *)
Definition summary_step (c : Z) (s : summary N) (movement : movement N) : summary N :=
  if clientId movement =? c then
    {| sum_totalWeight :=
         (sum_totalWeight s + totalWeight movement * js_int (multiplier (type movement)))%js;
       sum_productWeight :=
         (sum_productWeight s + productWeight movement * js_int (multiplier (type movement)))%js;
       plasticBoxes :=
         add_boxes (plasticBoxes s) (plasticBoxCount movement) (multiplier (type movement));
       woodBoxes :=
         add_boxes (woodBoxes s) (woodBoxCount movement) (multiplier (type movement)) |}
  else s.

Definition getClientStockSummary (c : Z) (stockMovements : list (movement N)) : summary N :=
  fold_left (summary_step c) stockMovements
    {| sum_totalWeight := js_int 0; sum_productWeight := js_int 0;
       plasticBoxes := 0; woodBoxes := 0 |}.

(** The browser's [getProductStockForClient]: [filter] then [reduce]. *)
Definition getProductStockForClient (c : Z) (p : string)
    (stockMovements : list (movement N)) : num :=
  fold_left (fun stock movement =>
               (stock + productWeight movement * js_int (multiplier (type movement)))%js)
    (filter (fun m => (clientId m =? c) && String.eqb (product m) p) stockMovements)
    (js_int 0).

(** A [Map<string, ...>] as the list of its entries in insertion order. *)
Fixpoint map_get {A : Type} (key : string) (entries : list (string * A)) : option A :=
  match entries with
  | [] => None
  | (k, v) :: rest => if String.eqb k key then Some v else map_get key rest
  end.

(** [Map.prototype.set]: an existing key keeps its place. *)
Fixpoint map_set {A : Type} (key : string) (value : A) (entries : list (string * A))
    : list (string * A) :=
  match entries with
  | [] => [(key, value)]
  | (k, v) :: rest =>
      if String.eqb k key then (key, value) :: rest
      else (k, v) :: map_set key value rest
  end.

(** The body of the [forEach] of [getClientStockDetailsByProduct]. *)
Definition details_step (productStock : list (string * summary N)) (m : movement N)
    : list (string * summary N) :=
  let currentStock :=
    match map_get (product m) productStock with
    | Some stock => stock
    | None => {| sum_totalWeight := js_int 0; sum_productWeight := js_int 0;
                 plasticBoxes := 0; woodBoxes := 0 |}
    end in
  let multiplier := multiplier (type m) in
  map_set (product m)
    {| sum_totalWeight := (sum_totalWeight currentStock + totalWeight m * js_int multiplier)%js;
       sum_productWeight :=
         (sum_productWeight currentStock + productWeight m * js_int multiplier)%js;
       plasticBoxes := plasticBoxes currentStock + or_zero_int (plasticBoxCount m) * multiplier;
       woodBoxes := woodBoxes currentStock + or_zero_int (woodBoxCount m) * multiplier |}
    productStock.

(** [Array.prototype.sort] with a comparator, as a stable insertion sort:
    an element stays before the elements it does not compare above. *)
Fixpoint sort_insert {A : Type} (compare : A -> A -> Z) (x : A) (sorted : list A) : list A :=
  match sorted with
  | [] => [x]
  | y :: rest =>
      if compare x y <=? 0 then x :: y :: rest
      else y :: sort_insert compare x rest
  end.

Definition sort {A : Type} (compare : A -> A -> Z) (items : list A) : list A :=
  fold_right (sort_insert compare) [] items.

(** The stock of a client product by product: the entries of the map, those
    with a net weight above 0.005 only, in the order of their names. *)
Definition getClientStockDetailsByProduct (c : Z) (stockMovements : list (movement N))
    : list (string * summary N) :=
  sort (fun a b => localeCompare (fst a) (fst b))
    (filter (fun item => (sum_productWeight (snd item) > near_zero)%js)
       (fold_left details_step
          (filter (fun m => clientId m =? c) stockMovements) [])).

(** The filter of the badge of unread anomalies: [m.recordedByUserId ===
    currentUser.id && m.farmerComment && !m.isCommentRead]. *)
Definition is_unread_for (userId : Z) (m : movement N) : bool :=
  (recordedByUserId m =? userId)
  && truthy_opt truthy_string (farmerComment m)
  && negb (truthy_opt (fun read : bool => read) (isCommentRead m)).

Definition unreadCount (userId : Z) (stockMovements : list (movement N)) : Z :=
  Z.of_nat (List.length (filter (is_unread_for userId) stockMovements)).

End Cache.

(** The body [handleFarmerCommentSave] sends: the comment of the form,
    trimmed, and no flag. *)
Definition farmer_comment_body {N : JsNumber} {R : Runtime N} (comment : string)
    : patch_body :=
  {| patch_farmerComment := Some (trim comment); patch_isCommentRead := None |}.

(** The body [renderViewCommentModal] sends when the comment is opened. *)
Definition mark_read_body : patch_body :=
  {| patch_farmerComment := None; patch_isCommentRead := Some true |}.

End Client.

(** ** More sample requests *)

(** A deposit of 10 kg gross that names -2 plastic boxes of 5 kg. *)
Definition deposit_negative_boxes : movement_body Exact :=
  {| req_clientId := Some 1; req_type := Some "in"; req_product := Some "Pommes";
     req_totalWeight := Some 10%Q;
     req_plasticBoxCount := Some (-2); req_plasticBoxWeight := Some 5%Q;
     req_woodBoxCount := None; req_woodBoxWeight := None;
     req_recordedByUserId := Some 1; req_comment := None |}.

(** ** Accounts: login, creation and the first administrator *)

Module Accounts.

(** SQLite's [lower()], which changes the ASCII letters only. *)
Definition lower_char (c : ascii) : ascii :=
  let n := nat_of_ascii c in
  if (65 <=? n)%nat && (n <=? 90)%nat then ascii_of_nat (n + 32) else c.

Fixpoint lower (s : string) : string :=
  match s with
  | EmptyString => EmptyString
  | String c rest => String (lower_char c) (lower rest)
  end.

(** The body of [POST /api/login]. *)
Record login_body : Type := {
  login_username : option string;
  login_password : option string;
  login_role : option string
}.

(** [SELECT * FROM users WHERE lower(username) = lower(?) AND role = ?],
    of which [db.get] hands over the first row. *)
Definition find_account (username role : string) (users : list Users.user)
    : option Users.user :=
  find (fun u => String.eqb (lower (Users.username u)) (lower username)
                 && String.eqb (Users.role u) role) users.

(** The handler; [bcrypt_compare password hash] is [bcrypt.compare].  The
    user is returned without the [password] column. *)
Definition login (bcrypt_compare : string -> string -> bool) (b : login_body)
    (users : list Users.user) : response Users.listed_user :=
  if negb (truthy_opt truthy_string (login_username b))
     || negb (truthy_opt truthy_string (login_password b))
     || negb (truthy_opt truthy_string (login_role b))
  then reply 400 "Username, password, and role are required."
  else
    match login_username b, login_password b, login_role b with
    | Some username, Some password, Some role =>
        match find_account username role users with
        | None => reply 401 "Invalid credentials or role."
        | Some user =>
            if negb (bcrypt_compare password (Users.password user)) then
              reply 401 "Invalid credentials or role."
            else if String.eqb (Users.status user) "Suspended" then
              reply 403 "This account has been suspended."
            else {| http_status := 200; http_body := Json (Users.listed user) |}
        end
    | _, _, _ => reply 400 "Username, password, and role are required."
    end.

(** The [users] table with the counter that [AUTOINCREMENT] keeps for it:
    the largest rowid the table has ever held. *)
Record store : Type := {
  rows : list Users.user;
  sequence : Z
}.

(** The rowid of an [INSERT]: one more than the largest rowid ever held. *)
Definition next_rowid (st : store) : Z :=
  Z.max (sequence st) (fold_right Z.max 0 (map Users.id (rows st))) + 1.

Definition insert (row : Users.user) (st : store) : store :=
  {| rows := rows st ++ [row]; sequence := Users.id row |}.

(** [username TEXT NOT NULL UNIQUE] on an [INSERT]. *)
Definition username_taken (username : string) (st : store) : bool :=
  existsb (fun u => String.eqb (Users.username u) username) (rows st).

(** The body of [POST /api/users]. *)
Record new_user_body : Type := {
  new_name : option string;
  new_username : option string;
  new_password : option string;
  new_role : option string;
  new_clientId : option Z
}.

Definition post_user (bcrypt_hash : string -> string) (b : new_user_body) (st : store)
    : response Users.listed_user * store :=
  if negb (truthy_opt truthy_string (new_name b))
     || negb (truthy_opt truthy_string (new_username b))
     || negb (truthy_opt truthy_string (new_password b))
     || negb (truthy_opt truthy_string (new_role b))
  then (reply 400 "Missing required fields for new user.", st)
  else
    match new_name b, new_username b, new_password b, new_role b with
    | Some name, Some username, Some password, Some role =>
        if username_taken username st then
          (reply 409 "Username already exists.", st)
        else
          let row :=
            {| Users.id := next_rowid st;
               Users.username := username;
               Users.name := name;
               Users.role := role;
               Users.status := "Active";
               Users.password := bcrypt_hash password;
               Users.clientId :=
                 if String.eqb role "Agriculteur" then new_clientId b else None |} in
          ({| http_status := 201; http_body := Json (Users.listed row) |},
           insert row st)
    | _, _, _, _ => (reply 400 "Missing required fields for new user.", st)
    end.

(** The row [initializeDatabase] inserts; [clientId] is not in its column
    list. *)
Definition first_admin (bcrypt_hash : string -> string) (st : store) : Users.user :=
  {| Users.id := next_rowid st;
     Users.username := "admin";
     Users.name := "Alice Durand";
     Users.role := "Admin";
     Users.status := "Active";
     Users.password := bcrypt_hash "password";
     Users.clientId := None |}.

(** The part of [initializeDatabase] that looks for an administrator, on
    tables that exist.  [None] is the rejected promise, after which the
    process exits. *)
Definition initializeDatabase (bcrypt_hash : string -> string) (st : store)
    : option store :=
  let count :=
    Z.of_nat (List.length (filter (fun u => String.eqb (Users.role u) "Admin") (rows st))) in
  if count =? 0 then
    if username_taken "admin" st then None
    else Some (insert (first_admin bcrypt_hash st) st)
  else Some st.

(** The three requests that change the table, each with the hashes
    [bcrypt] makes while it is served. *)
Inductive request : Type :=
| PostUser (bcrypt_hash : string -> string) (b : new_user_body)
| PutUser (bcrypt_hash : string -> string) (userId : Z) (b : Users.user_body)
| DeleteUser (userId : Z).

Definition handle (st : store) (r : request) : store :=
  match r with
  | PostUser bcrypt_hash b => snd (post_user bcrypt_hash b st)
  | PutUser bcrypt_hash userId b =>
      {| rows := snd (Users.put_user bcrypt_hash userId b (rows st));
         sequence := sequence st |}
  | DeleteUser userId =>
      {| rows := snd (Users.delete_user userId (rows st)); sequence := sequence st |}
  end.

Definition serve (requests : list request) (st : store) : store :=
  fold_left handle requests st.

Definition empty : store := {| rows := []; sequence := 0 |}.

End Accounts.

(** The body [handleSuspendToggle] sends for a user of the browser's
    cache: the other status, and nothing else. *)
Definition suspend_toggle_body (user : Users.listed_user) : Users.user_body :=
  {| Users.put_name := None; Users.put_username := None; Users.put_role := None;
     Users.put_clientId := None; Users.put_password := None;
     Users.put_status :=
       Some (if String.eqb (Users.listed_status user) "Active"
             then "Suspended" else "Active") |}.

(** ** The [clients] table *)

Module Clients.

Record client : Type := {
  id : Z;
  name : string;
  joinDate : string;
  type : string;
  phone : string;
  address : string;
  email : string;
  comment : option string
}.

(** The body of [POST /api/clients]. *)
Record client_body : Type := {
  new_name : option string;
  new_type : option string;
  new_phone : option string;
  new_address : option string;
  new_email : option string;
  new_comment : option string
}.

(** [this.lastID]; no request deletes a client. *)
Definition lastID (clients : list client) : Z :=
  fold_right Z.max 0 (map id clients) + 1.

(** The handler; [today] is [new Date().toISOString().split('T')[0]]. *)
Definition post_client (today : string) (b : client_body) (clients : list client)
    : response client * list client :=
  if negb (truthy_opt truthy_string (new_name b))
     || negb (truthy_opt truthy_string (new_type b))
     || negb (truthy_opt truthy_string (new_phone b))
     || negb (truthy_opt truthy_string (new_address b))
     || negb (truthy_opt truthy_string (new_email b))
  then (reply 400 "Missing required client fields.", clients)
  else
    match new_name b, new_type b, new_phone b, new_address b, new_email b with
    | Some name, Some type, Some phone, Some address, Some email =>
        let row :=
          {| id := lastID clients; name := name; joinDate := today; type := type;
             phone := phone; address := address; email := email;
             comment := new_comment b |} in
        ({| http_status := 201; http_body := Json row |}, clients ++ [row])
    | _, _, _, _, _ => (reply 400 "Missing required client fields.", clients)
    end.

(** The table after a list of requests, each with the date it arrives on. *)
Definition run (requests : list (string * client_body)) (clients : list client)
    : list client :=
  fold_left (fun table request => snd (post_client (fst request) (snd request) table))
    requests clients.

(** [getClientNameById] of the browser over its cache of the clients. *)
Definition getClientNameById (clientId : Z) (clients : list client) : string :=
  match find (fun c => id c =? clientId) clients with
  | Some c => name c
  | None => "Client inconnu"
  end.

End Clients.

(** Accounts for the examples: a receptionist and a second one whose
    username differs by its capital only, and the hashing of the examples,
    which tags the password. *)
Definition sample_hash (password : string) : string := ("$2b$10$" ++ password)%string.

Definition sample_compare (password hash : string) : bool :=
  String.eqb hash (sample_hash password).

Definition new_receptionist (username password : string) : Accounts.new_user_body :=
  {| Accounts.new_name := Some "Camille Roy"; Accounts.new_username := Some username;
     Accounts.new_password := Some password; Accounts.new_role := Some "Réceptionniste";
     Accounts.new_clientId := None |}.

Definition credentials (username password role : string) : Accounts.login_body :=
  {| Accounts.login_username := Some username; Accounts.login_password := Some password;
     Accounts.login_role := Some role |}.

(** What a PUT makes of a text column: the field of the body when it is
    there and not empty, the stored value otherwise. *)
Definition field_or_stored (field : option string) (stored : string) : string :=
  match field with
  | Some v => if truthy_string v then v else stored
  | None => stored
  end.

(** A body that names a new role and nothing else. *)
Definition role_only (role : string) : Users.user_body :=
  {| Users.put_name := None; Users.put_username := None; Users.put_role := Some role;
     Users.put_clientId := None; Users.put_password := None; Users.put_status := None |}.

(** * Properties *)

(** ** Numbers *)

Lemma Qltb_true (x y : Q) : Qltb x y = true <-> (x < y)%Q.
Proof.
  unfold Qltb. rewrite negb_true_iff. split.
  - intros H. apply Qnot_le_lt. intros L. apply Qle_bool_iff in L. congruence.
  - intros H. destruct (Qle_bool y x) eqn:E; [|reflexivity].
    apply Qle_bool_iff in E. exfalso. apply (Qlt_not_le _ _ H E).
Qed.

Lemma Qltb_false (x y : Q) : Qltb x y = false <-> (y <= x)%Q.
Proof.
  unfold Qltb. rewrite negb_false_iff. apply Qle_bool_iff.
Qed.

Lemma exact_lt_irreflexive : lt_irreflexive Exact.
Proof.
  intros x y H. cbn in *. apply Qeq_bool_iff in H.
  apply Qltb_false. rewrite H. apply Qle_refl.
Qed.

Lemma SFcompare_swap (a b : spec_float) :
  SFcompare b a = option_map CompOpp (SFcompare a b).
Proof.
  destruct a as [sa|sa| |sa ma ea], b as [sb|sb| |sb mb eb];
    try destruct sa; try destruct sb; try reflexivity.
  all: unfold SFcompare, option_map; f_equal.
  all: rewrite (Z.compare_antisym ea eb); destruct (ea ?= eb); try reflexivity.
  all: cbn [CompOpp].
  all: change (Pos.compare_cont Eq mb ma) with (Pos.compare_cont (CompOpp Eq) mb ma).
  all: rewrite <- (Pos.compare_cont_antisym ma mb Eq).
  all: destruct (Pos.compare_cont Eq ma mb); reflexivity.
Qed.

Lemma SFcompare_eq_not_lt (a b : spec_float) :
  SFcompare a b = Some Eq -> SFcompare b a <> Some Lt.
Proof.
  intros H. rewrite SFcompare_swap, H. discriminate.
Qed.

Lemma binary64_lt_irreflexive : lt_irreflexive Binary64.
Proof.
  intros x y H. cbn in *.
  rewrite eqb_spec in H. rewrite ltb_spec.
  unfold SFeqb in H. unfold SFltb.
  destruct (SFcompare (Prim2SF x) (Prim2SF y)) as [[ | | ]|] eqn:E; try discriminate.
  pose proof (SFcompare_eq_not_lt _ _ E) as NL.
  destruct (SFcompare (Prim2SF y) (Prim2SF x)) as [[ | | ]|]; congruence.
Qed.

(** *** The sign of a sum of doubles

    The operations on doubles are those of the IEEE-754 specification of
    the library ([SFadd], [SFmul], [SFcompare]) at 53 bits. *)
















(** ** The balance calculator *)

Section BalanceFacts.

Context {N : JsNumber}.

Lemma select_client_rows (c : Z) (rows : list (movement N)) :
  select_client c rows = rows_of_client c rows.
Proof.
  apply filter_ext. intros m.
  destruct (Z.eq_dec (clientId m) c) as [E|E].
  - apply Z.eqb_eq, E.
  - apply Z.eqb_neq, E.
Qed.

Lemma select_client_product_rows (c : Z) (p : string) (rows : list (movement N)) :
  select_client_product c p rows = rows_of_product c p rows.
Proof.
  apply filter_ext. intros m.
  destruct (Z.eq_dec (clientId m) c) as [E|E].
  - rewrite (proj2 (Z.eqb_eq _ _) E). cbn.
    destruct (string_dec (product m) p) as [P|P].
    + apply String.eqb_eq, P.
    + apply String.eqb_neq, P.
  - rewrite (proj2 (Z.eqb_neq _ _) E). reflexivity.
Qed.

Lemma fold_weights (term : movement N -> num) (rows : list (movement N)) (acc : num) :
  fold_left (fun a m => (a + term m)%js) rows acc
  = fold_left js_add (map term rows) acc.
Proof.
  revert acc. induction rows as [|m rows IH]; intros acc; cbn.
  - reflexivity.
  - apply IH.
Qed.

Lemma add_boxes_count (boxes : Z) (count : option Z) (mult : Z) :
  add_boxes boxes count mult = boxes + count_or_zero count * mult.
Proof.
  destruct count as [n|]; cbn.
  - unfold truthy_int. destruct (Z.eqb_spec n 0) as [->|]; cbn; lia.
  - lia.
Qed.

Lemma summary_fold (rows : list (movement N)) (s : summary N) :
  let s' := fold_left summary_step rows s in
  sum_totalWeight s'
  = fold_left js_add
      (map (fun m => (totalWeight m * js_int (multiplier (type m)))%js) rows)
      (sum_totalWeight s)
  /\ sum_productWeight s'
     = fold_left js_add
         (map (fun m => (productWeight m * js_int (multiplier (type m)))%js) rows)
         (sum_productWeight s)
  /\ plasticBoxes s'
     = plasticBoxes s
       + sigma_int (map (fun m => count_or_zero (plasticBoxCount m) * multiplier (type m)) rows)
  /\ woodBoxes s'
     = woodBoxes s
       + sigma_int (map (fun m => count_or_zero (woodBoxCount m) * multiplier (type m)) rows).
Proof.
  revert s. induction rows as [|m rows IH]; intros s; cbn.
  - repeat split; try reflexivity; lia.
  - destruct (IH (summary_step s m)) as (T & P & B & W).
    cbn in T, P, B, W. rewrite T, P, B, W. cbn.
    rewrite !add_boxes_count. repeat split; try reflexivity.
    all: unfold sigma_int; lia.
Qed.

End BalanceFacts.

(** C3: for every client and every ledger, the summary is made of the
    signed sums of [totalWeight], [productWeight] and the two box counts
    over the rows of the client, a missing count adding 0, with sign +1 for
    ['in'] and -1 for ['out']; the product balance is the signed sum of
    [productWeight] over the rows of the client whose product is the given
    string. *)
Theorem balance_is_signed_sum :
  forall (N : JsNumber) (c : Z) (p : string) (rows : list (movement N)),
    let s := getClientStockSummary c rows in
    let mine := rows_of_client c rows in
    sum_totalWeight s
    = sigma (map (fun m => (totalWeight m * js_int (multiplier (type m)))%js) mine)
    /\ sum_productWeight s
       = sigma (map (fun m => (productWeight m * js_int (multiplier (type m)))%js) mine)
    /\ plasticBoxes s
       = sigma_int (map (fun m => count_or_zero (plasticBoxCount m) * multiplier (type m)) mine)
    /\ woodBoxes s
       = sigma_int (map (fun m => count_or_zero (woodBoxCount m) * multiplier (type m)) mine)
    /\ getProductStockForClient c p rows
       = sigma (map (fun m => (productWeight m * js_int (multiplier (type m)))%js)
                  (rows_of_product c p rows))
    /\ multiplier "in" = 1
    /\ multiplier "out" = -1.
Proof.
  intros N c p rows s mine. subst s mine.
  unfold getClientStockSummary, getProductStockForClient, sigma.
  rewrite select_client_rows, select_client_product_rows.
  destruct (summary_fold (rows_of_client c rows)
              {| sum_totalWeight := js_int 0; sum_productWeight := js_int 0;
                 plasticBoxes := 0; woodBoxes := 0 |}) as (T & P & B & W).
  cbn in T, P, B, W.
  repeat split; try assumption.
  apply fold_weights.
Qed.

(** ** Order of the rows *)

Lemma exact_fold_acc (term : movement Exact -> Q) (rows : list (movement Exact))
    (a a' : Q) :
  (a == a')%Q ->
  (fold_left (fun acc m => acc + term m) rows a
   == fold_left (fun acc m => acc + term m) rows a')%Q.
Proof.
  revert a a'. induction rows as [|m rows IH]; intros a a' E; cbn.
  - exact E.
  - apply IH. rewrite E. reflexivity.
Qed.

Lemma exact_fold_permutation (term : movement Exact -> Q)
    (rows rows' : list (movement Exact)) :
  Permutation rows rows' ->
  forall a a' : Q, (a == a')%Q ->
  (fold_left (fun acc m => acc + term m) rows a
   == fold_left (fun acc m => acc + term m) rows' a')%Q.
Proof.
  induction 1 as [|x l l' _ IH|x y l|l l' l'' _ IH1 _ IH2]; intros a a' E.
  - exact E.
  - cbn. apply IH. rewrite E. reflexivity.
  - cbn. apply exact_fold_acc. rewrite E. ring.
  - rewrite (IH1 a a' E). apply IH2. reflexivity.
Qed.

Lemma filter_permutation {A : Type} (f : A -> bool) (l l' : list A) :
  Permutation l l' -> Permutation (filter f l) (filter f l').
Proof.
  induction 1 as [|x l l' _ IH|x y l|l l' l'' _ IH1 _ IH2]; cbn.
  - constructor.
  - destruct (f x); [constructor|]; exact IH.
  - destruct (f x), (f y); try apply Permutation_refl. apply perm_swap.
  - eapply Permutation_trans; eassumption.
Qed.

(** C5, as amended: the product balance is the signed sum of
    [productWeight] over the rows of the client and product, added in
    insertion order from 0, whatever the arithmetic; when the arithmetic is
    exact, the balance has the same value for every permutation of the
    rows. *)
Theorem product_balance_insertion_order :
  (forall (N : JsNumber) (c : Z) (p : string) (rows : list (movement N)),
     getProductStockForClient c p rows
     = sigma (map (fun m => (productWeight m * js_int (multiplier (type m)))%js)
                (rows_of_product c p rows)))
  /\ (forall (c : Z) (p : string) (rows rows' : list (movement Exact)),
        Permutation rows rows' ->
        (getProductStockForClient c p rows == getProductStockForClient c p rows')%Q).
Proof.
  split.
  - intros N c p rows. unfold getProductStockForClient, sigma.
    rewrite select_client_product_rows. apply fold_weights.
  - intros c p rows rows' P. unfold getProductStockForClient.
    apply (exact_fold_permutation
             (fun m => (productWeight m * js_int (multiplier (type m)))%js)).
    + apply filter_permutation, P.
    + reflexivity.
Qed.

Lemma product_balance_insertion_order_witness :
  (getProductStockForClient 1 "Pommes" deposits_exact
   == getProductStockForClient 1 "Pommes" (rev deposits_exact))%Q.
Proof.
  apply (proj2 product_balance_insertion_order 1 "Pommes" deposits_exact
           (rev deposits_exact)).
  apply Permutation_rev.
Defined.

(** C5, as stated, fails on the numbers the server computes with: the
    three deposits give 0.6000000000000001 kg in the order 0.1, 0.2, 0.3
    and 0.6 kg in the order 0.3, 0.2, 0.1. *)
Lemma product_balance_order_binary64 :
  Permutation deposits_binary64 (rev deposits_binary64)
  /\ getProductStockForClient 1 "Pommes" deposits_binary64
     <> getProductStockForClient 1 "Pommes" (rev deposits_binary64).
Proof.
  split.
  - apply Permutation_rev.
  - intros E.
    assert (D : PrimFloat.eqb
                  (getProductStockForClient 1 "Pommes" deposits_binary64)
                  (getProductStockForClient 1 "Pommes" (rev deposits_binary64))
                = false) by (vm_compute; reflexivity).
    rewrite E in D. vm_compute in D. discriminate D.
Qed.

(** ** POST /api/movements *)

Section PostFacts.

Context {N : JsNumber} {R : Runtime N}.

Lemma post_movement_missing today (b : movement_body N) db :
  required_fields b = None ->
  post_movement today b db = (reply 400 missing_fields_message, db).
Proof.
  intros H. unfold post_movement. rewrite H. reflexivity.
Qed.

Lemma post_movement_negative today (b : movement_body N) db c t p w u :
  required_fields b = Some (c, t, p, w, u) ->
  (derived_weight b w < js_int 0)%js = true ->
  post_movement today b db = (reply 400 negative_weight_message, db).
Proof.
  intros H L. unfold post_movement. rewrite H, L. reflexivity.
Qed.

Lemma post_movement_checked today (b : movement_body N) db c t p w u :
  required_fields b = Some (c, t, p, w, u) ->
  (derived_weight b w < js_int 0)%js = false ->
  post_movement today b db
  = match check_stock c t p (derived_weight b w)
            (or_zero_int (req_plasticBoxCount b))
            (or_zero_int (req_woodBoxCount b)) db with
    | Some rejection => (rejection, db)
    | None =>
        ({| http_status := 201; http_body := Json (new_row today b c t p w u db) |},
         db ++ [new_row today b c t p w u db])
    end.
Proof.
  intros H L. unfold post_movement. rewrite H, L. reflexivity.
Qed.

Lemma required_fields_inv (b : movement_body N) c t p w u :
  required_fields b = Some (c, t, p, w, u) ->
  req_clientId b = Some c /\ req_type b = Some t /\ req_product b = Some p
  /\ req_totalWeight b = Some w /\ req_recordedByUserId b = Some u
  /\ truthy_int c = true /\ truthy_string t = true /\ truthy_string p = true
  /\ truthy_num w = true /\ truthy_int u = true.
Proof.
  unfold required_fields.
  destruct (req_clientId b) as [c'|]; [|discriminate].
  destruct (req_type b) as [t'|]; [|discriminate].
  destruct (req_product b) as [p'|]; [|discriminate].
  destruct (req_totalWeight b) as [w'|]; [|discriminate].
  destruct (req_recordedByUserId b) as [u'|]; [|discriminate].
  destruct (truthy_int c') eqn:Tc, (truthy_string t') eqn:Tt,
           (truthy_string p') eqn:Tp, (truthy_num w') eqn:Tw,
           (truthy_int u') eqn:Tu; cbn; try discriminate.
  intros E. injection E as -> -> -> -> ->. repeat split; assumption.
Qed.

Lemma check_stock_status c t p weight pBoxCount wBoxCount db rejection :
  check_stock c t p weight pBoxCount wBoxCount db = Some rejection ->
  http_status rejection = 400.
Proof.
  unfold check_stock. intros H.
  repeat match type of H with
         | (if ?x then _ else _) = _ => destruct x
         end; try discriminate; injection H as <-; reflexivity.
Qed.

(** What the handler can do: leave the ledger as it is and answer 400, or
    append the new row and answer 201 with it. *)
Lemma post_movement_outcome today (b : movement_body N) db :
  (http_status (fst (post_movement today b db)) = 400
   /\ snd (post_movement today b db) = db)
  \/ (exists c t p w u,
        required_fields b = Some (c, t, p, w, u)
        /\ (derived_weight b w < js_int 0)%js = false
        /\ check_stock c t p (derived_weight b w)
             (or_zero_int (req_plasticBoxCount b))
             (or_zero_int (req_woodBoxCount b)) db = None
        /\ post_movement today b db
           = ({| http_status := 201;
                 http_body := Json (new_row today b c t p w u db) |},
              db ++ [new_row today b c t p w u db])).
Proof.
  destruct (required_fields b) as [[[[[c t] p] w] u]|] eqn:Q.
  - destruct (derived_weight b w < js_int 0)%js eqn:L.
    + left. rewrite (post_movement_negative _ _ _ _ _ _ _ _ Q L). split; reflexivity.
    + rewrite (post_movement_checked _ _ _ _ _ _ _ _ Q L).
      destruct (check_stock _ _ _ _ _ _ _) as [rejection|] eqn:C.
      * left. split; [|reflexivity]. apply (check_stock_status _ _ _ _ _ _ _ _ C).
      * right. exists c, t, p, w, u. repeat split; assumption.
  - left. rewrite (post_movement_missing _ _ _ Q). split; reflexivity.
Qed.

End PostFacts.

(** The stored columns: when the request names no negative box count, the
    row satisfies the relation between its own columns, a NULL count or
    unit weight counting as 0. *)
Lemma stored_columns_weight {R : Runtime Exact} today (b : movement_body Exact)
    (c : Z) (t p : string) (w : Q) (u : Z) (db : list (movement Exact)) :
  0 <= or_zero_int (req_plasticBoxCount b) ->
  0 <= or_zero_int (req_woodBoxCount b) ->
  let row := new_row today b c t p w u db in
  let weight_or_zero (x : option Q) := match x with Some q => q | None => 0%Q end in
  (productWeight row
   == totalWeight row
      - inject_Z (count_or_zero (plasticBoxCount row)) * weight_or_zero (plasticBoxWeight row)
      - inject_Z (count_or_zero (woodBoxCount row)) * weight_or_zero (woodBoxWeight row))%Q.
Proof.
  intros Hp Hw row weight_or_zero. subst row weight_or_zero.
  cbn [new_row productWeight totalWeight plasticBoxCount plasticBoxWeight
       woodBoxCount woodBoxWeight].
  unfold derived_weight, net_weight. cbn [js_sub js_mul js_int Exact].
  destruct (Z.gtb_spec (or_zero_int (req_plasticBoxCount b)) 0) as [Gp|Gp];
    destruct (Z.gtb_spec (or_zero_int (req_woodBoxCount b)) 0) as [Gw|Gw];
    cbn [count_or_zero].
  - reflexivity.
  - replace (or_zero_int (req_woodBoxCount b)) with 0 by lia. ring.
  - replace (or_zero_int (req_plasticBoxCount b)) with 0 by lia. ring.
  - replace (or_zero_int (req_plasticBoxCount b)) with 0 by lia.
    replace (or_zero_int (req_woodBoxCount b)) with 0 by lia. ring.
Qed.

(** C1: a request either leaves the ledger alone with a 400 or stores one
    row whose [productWeight] is the gross weight minus count times unit
    weight for the plastic and for the wood boxes, a missing count or unit
    weight being 0; when that derived weight is below 0 the request is
    answered 400 and nothing is stored. *)
Theorem productWeight_is_derived :
  forall (N : JsNumber) (R : Runtime N) (today : string) (b : movement_body N)
         (db : list (movement N)) (w : num),
    req_totalWeight b = Some w ->
    let out := post_movement today b db in
    let weight :=
      (w - js_int (or_zero_int (req_plasticBoxCount b)) * or_zero (req_plasticBoxWeight b)
         - js_int (or_zero_int (req_woodBoxCount b)) * or_zero (req_woodBoxWeight b))%js in
    ((http_status (fst out) = 400 /\ snd out = db)
     \/ (exists row,
           out = ({| http_status := 201; http_body := Json row |}, db ++ [row])
           /\ productWeight row = weight))
    /\ ((weight < js_int 0)%js = true -> http_status (fst out) = 400 /\ snd out = db)
    /\ or_zero (N := N) None = js_int 0
    /\ or_zero_int None = 0.
Proof.
  intros N R today b db w W out weight. subst out weight.
  split; [|split; [|split; reflexivity]].
  - destruct (post_movement_outcome today b db)
      as [H|(c & t & p & w' & u & Q & L & C & E)].
    + left. exact H.
    + right. exists (new_row today b c t p w' u db). split; [exact E|].
      apply required_fields_inv in Q. destruct Q as (_ & _ & _ & W' & _).
      rewrite W in W'. injection W' as <-. reflexivity.
  - intros Neg.
    destruct (required_fields b) as [[[[[c t] p] w'] u]|] eqn:Q.
    + pose proof (required_fields_inv _ _ _ _ _ _ Q) as (_ & _ & _ & W' & _).
      rewrite W in W'. injection W' as <-.
      rewrite (post_movement_negative today b db _ _ _ _ _ Q Neg).
      split; reflexivity.
    + rewrite (post_movement_missing today b db Q). split; reflexivity.
Qed.

Lemma productWeight_is_derived_witness :
  exists row,
    snd (post_movement "2024-05-01" deposit_100 []) = [row]
    /\ (productWeight row == 90)%Q.
Proof.
  destruct (productWeight_is_derived Exact ExactRuntime "2024-05-01" deposit_100 []
              100%Q eq_refl) as [[[S _]|(row & E & W)] _].
  - vm_compute in S. discriminate S.
  - exists row. rewrite E. split; [reflexivity|].
    rewrite W. vm_compute. reflexivity.
Defined.

(** C6: a request of type ['in'] with its required fields goes through no
    stock check, whatever the ledger holds: it is answered 400 when its
    derived weight is below 0 and is stored otherwise. *)
Theorem deposit_skips_stock_checks :
  forall (N : JsNumber) (R : Runtime N) (today : string) (b : movement_body N)
         (db : list (movement N)) (c : Z) (p : string) (w : num) (u : Z),
    required_fields b = Some (c, "in", p, w, u) ->
    check_stock c "in" p (derived_weight b w)
      (or_zero_int (req_plasticBoxCount b)) (or_zero_int (req_woodBoxCount b)) db
    = None
    /\ ((derived_weight b w < js_int 0)%js = true ->
        post_movement today b db = (reply 400 negative_weight_message, db))
    /\ ((derived_weight b w < js_int 0)%js = false ->
        post_movement today b db
        = ({| http_status := 201;
              http_body := Json (new_row today b c "in" p w u db) |},
           db ++ [new_row today b c "in" p w u db])).
Proof.
  intros N R today b db c p w u Q. repeat split.
  - intros L. apply (post_movement_negative _ _ _ _ _ _ _ _ Q L).
  - intros L. rewrite (post_movement_checked _ _ _ _ _ _ _ _ Q L). reflexivity.
Qed.

Lemma deposit_skips_stock_checks_witness :
  http_status (fst (post_movement "2024-05-02" deposit_100 ledger_90)) = 201
  /\ List.length (snd (post_movement "2024-05-02" deposit_100 ledger_90)) = 2%nat.
Proof.
  destruct (deposit_skips_stock_checks Exact ExactRuntime "2024-05-02" deposit_100
              ledger_90 1 "Pommes" 100%Q 1 eq_refl) as (_ & _ & S).
  rewrite (S eq_refl). split; reflexivity.
Defined.



(** C2: a request of type ['out'] with its required fields and a derived
    weight that is not below 0 is answered 400 exactly when its derived
    weight is strictly above the product balance or one of its box counts
    is strictly above the box balance of the client.  The message is that
    of the first check that fails and spells out the available and the
    requested amount: the two weights with two decimals, the two box
    counts in decimal digits.  Otherwise the request is stored, and in
    particular when the derived weight is equal to the product balance and
    the box counts are equal to (or below) the box balances.  The
    arithmetic is any in which a number is not strictly above a number it
    is equal to, as holds of the doubles and of the rationals. *)
Theorem withdrawal_rejects_strict_excess :
  forall (N : JsNumber) (R : Runtime N),
    lt_irreflexive N ->
    forall (today : string) (b : movement_body N) (db : list (movement N))
           (c : Z) (p : string) (w : num) (u : Z),
      required_fields b = Some (c, "out", p, w, u) ->
      (derived_weight b w < js_int 0)%js = false ->
      let out := post_movement today b db in
      let weight := derived_weight b w in
      let pBoxCount := or_zero_int (req_plasticBoxCount b) in
      let wBoxCount := or_zero_int (req_woodBoxCount b) in
      let available := getProductStockForClient c p db in
      let stock := getClientStockSummary c db in
      (http_status (fst out) = 400
       <-> ((weight > available)%js = true
            \/ pBoxCount > plasticBoxes stock
            \/ wBoxCount > woodBoxes stock))
      /\ ((weight > available)%js = true ->
          out = (reply 400
                   ("Stock de produit net insuffisant. Stock disponible: "
                    ++ toFixed2 available ++ " kg. Sortie demandée: "
                    ++ toFixed2 weight ++ " kg."), db))
      /\ ((weight > available)%js = false -> pBoxCount > plasticBoxes stock ->
          out = (reply 400
                   ("Stock de box en plastique insuffisant. Box disponibles: "
                    ++ string_of_Z (plasticBoxes stock) ++ ". Sortie demandée: "
                    ++ string_of_Z pBoxCount ++ "."), db))
      /\ ((weight > available)%js = false -> pBoxCount <= plasticBoxes stock ->
          wBoxCount > woodBoxes stock ->
          out = (reply 400
                   ("Stock de box en bois insuffisant. Box disponibles: "
                    ++ string_of_Z (woodBoxes stock) ++ ". Sortie demandée: "
                    ++ string_of_Z wBoxCount ++ "."), db))
      /\ ((weight > available)%js = false -> pBoxCount <= plasticBoxes stock ->
          wBoxCount <= woodBoxes stock ->
          out = ({| http_status := 201;
                    http_body := Json (new_row today b c "out" p w u db) |},
                 db ++ [new_row today b c "out" p w u db]))
      /\ ((weight === available)%js = true -> pBoxCount <= plasticBoxes stock ->
          wBoxCount <= woodBoxes stock ->
          http_status (fst out) = 201).
Proof.
  intros N R Irr today b db c p w u Req L out weight pBoxCount wBoxCount available stock.
  assert (E : out
              = if (weight > available)%js then
                  (reply 400 (insufficient_product_message available weight), db)
                else if pBoxCount >? plasticBoxes stock then
                  (reply 400 (insufficient_plastic_message (plasticBoxes stock) pBoxCount), db)
                else if wBoxCount >? woodBoxes stock then
                  (reply 400 (insufficient_wood_message (woodBoxes stock) wBoxCount), db)
                else
                  ({| http_status := 201;
                      http_body := Json (new_row today b c "out" p w u db) |},
                   db ++ [new_row today b c "out" p w u db])).
  { subst out. rewrite (post_movement_checked _ _ _ _ _ _ _ _ Req L).
    unfold check_stock. cbn [String.eqb Ascii.eqb Bool.eqb].
    fold weight pBoxCount wBoxCount available stock.
    destruct (weight > available)%js; [reflexivity|].
    destruct (pBoxCount >? plasticBoxes stock); [reflexivity|].
    destruct (wBoxCount >? woodBoxes stock); reflexivity. }
  rewrite E. clear E.
  unfold insufficient_product_message, insufficient_plastic_message,
    insufficient_wood_message.
  destruct (weight > available)%js eqn:Lw.
  { repeat split; intros; try discriminate; cbn; auto.
    exfalso. pose proof (Irr _ _ ltac:(eassumption)). congruence. }
  destruct (Z.gtb_spec pBoxCount (plasticBoxes stock)) as [Gp|Gp].
  { repeat split; intros; try discriminate; try lia; cbn; auto. }
  destruct (Z.gtb_spec wBoxCount (woodBoxes stock)) as [Gw|Gw].
  { repeat split; intros; try discriminate; try lia; cbn; auto. }
  repeat split; intros; try discriminate; try lia; cbn; auto.
Qed.

Lemma withdrawal_rejects_strict_excess_witness :
  post_movement "2024-05-02" (withdrawal 91) ledger_90
  = (reply 400 "Stock de produit net insuffisant. Stock disponible: 90.00 kg. Sortie demandée: 91.00 kg.",
     ledger_90)
  /\ http_status (fst (post_movement "2024-05-02" (withdrawal 90) ledger_90)) = 201
  /\ post_movement "2024-05-02" (withdrawal_in_boxes (Some 3) None) ledger_90
     = (reply 400 "Stock de box en plastique insuffisant. Box disponibles: 2. Sortie demandée: 3.",
        ledger_90)
  /\ post_movement "2024-05-02" (withdrawal_in_boxes None (Some 1)) ledger_90
     = (reply 400 "Stock de box en bois insuffisant. Box disponibles: 0. Sortie demandée: 1.",
        ledger_90)
  /\ http_status (fst (post_movement "2024-05-02" (withdrawal_in_boxes (Some 2) None)
                         ledger_90)) = 201
  /\ post_movement "2024-05-02" (weighed "out" 91%float) ledger_90_binary64
     = (reply 400 "Stock de produit net insuffisant. Stock disponible: 90.00 kg. Sortie demandée: 91.00 kg.",
        ledger_90_binary64)
  /\ http_status (fst (post_movement "2024-05-02" (weighed "out" 90%float)
                         ledger_90_binary64)) = 201.
Proof.
  split; [|split; [|split; [|split; [|split; [|split]]]]].
  - destruct (withdrawal_rejects_strict_excess Exact ExactRuntime exact_lt_irreflexive
                "2024-05-02" (withdrawal 91) ledger_90 1 "Pommes" 91%Q 1
                eq_refl eq_refl) as (_ & Over & _).
    rewrite (Over eq_refl). reflexivity.
  - destruct (withdrawal_rejects_strict_excess Exact ExactRuntime exact_lt_irreflexive
                "2024-05-02" (withdrawal 90) ledger_90 1 "Pommes" 90%Q 1
                eq_refl eq_refl) as (_ & _ & _ & _ & _ & Equal).
    apply Equal; [reflexivity|discriminate|discriminate].
  - destruct (withdrawal_rejects_strict_excess Exact ExactRuntime exact_lt_irreflexive
                "2024-05-02" (withdrawal_in_boxes (Some 3) None) ledger_90
                1 "Pommes" 30%Q 1 eq_refl eq_refl) as (_ & _ & Plastic & _).
    rewrite (Plastic eq_refl eq_refl). reflexivity.
  - destruct (withdrawal_rejects_strict_excess Exact ExactRuntime exact_lt_irreflexive
                "2024-05-02" (withdrawal_in_boxes None (Some 1)) ledger_90
                1 "Pommes" 30%Q 1 eq_refl eq_refl) as (_ & _ & _ & Wood & _).
    rewrite (Wood eq_refl); [reflexivity|discriminate|reflexivity].
  - destruct (withdrawal_rejects_strict_excess Exact ExactRuntime exact_lt_irreflexive
                "2024-05-02" (withdrawal_in_boxes (Some 2) None) ledger_90
                1 "Pommes" 30%Q 1 eq_refl eq_refl) as (_ & _ & _ & _ & Stored & _).
    rewrite (Stored eq_refl); [reflexivity|discriminate|discriminate].
  - destruct (withdrawal_rejects_strict_excess Binary64 Binary64Runtime
                binary64_lt_irreflexive "2024-05-02" (weighed "out" 91%float)
                ledger_90_binary64 1 "Pommes" 91%float 1 eq_refl eq_refl)
      as (_ & Over & _).
    rewrite (Over eq_refl). reflexivity.
  - destruct (withdrawal_rejects_strict_excess Binary64 Binary64Runtime
                binary64_lt_irreflexive "2024-05-02" (weighed "out" 90%float)
                ledger_90_binary64 1 "Pommes" 90%float 1 eq_refl eq_refl)
      as (_ & _ & _ & _ & _ & Equal).
    apply Equal; [reflexivity|discriminate|discriminate].
Defined.

(** ** Balances along a run *)

Section AppendFacts.

Context {N : JsNumber}.

Lemma product_stock_app (c : Z) (p : string) (db : list (movement N)) (row : movement N) :
  getProductStockForClient c p (db ++ [row])
  = if (clientId row =? c) && String.eqb (product row) p
    then (getProductStockForClient c p db
          + productWeight row * js_int (multiplier (type row)))%js
    else getProductStockForClient c p db.
Proof.
  unfold getProductStockForClient, select_client_product.
  rewrite filter_app. cbn [filter].
  destruct ((clientId row =? c) && String.eqb (product row) p).
  - rewrite fold_left_app. reflexivity.
  - rewrite app_nil_r. reflexivity.
Qed.

Lemma summary_app (c : Z) (db : list (movement N)) (row : movement N) :
  getClientStockSummary c (db ++ [row])
  = if clientId row =? c
    then summary_step (getClientStockSummary c db) row
    else getClientStockSummary c db.
Proof.
  unfold getClientStockSummary, select_client.
  rewrite filter_app. cbn [filter].
  destruct (clientId row =? c).
  - rewrite fold_left_app. reflexivity.
  - rewrite app_nil_r. reflexivity.
Qed.

End AppendFacts.

Section RunFacts.

Context {N : JsNumber} {R : Runtime N}.

Lemma run_app (requests more : list (string * movement_body N)) (db : list (movement N)) :
  run (requests ++ more) db = run more (run requests db).
Proof.
  unfold run. apply fold_left_app.
Qed.


End RunFacts.






Section RunInvariant.

Context {N : JsNumber} {R : Runtime N}.


End RunInvariant.




(** ** PATCH /api/movements/:id *)

Section PatchFacts.

Context {N : JsNumber} {R : Runtime N}.

Lemma patch_movement_stored (movementId : Z) (b : patch_body) (db : list (movement N)) :
  snd (patch_movement movementId b db)
  = match patch_updates b with
    | [] => db
    | updates =>
        map (fun m => if id m =? movementId then fold_left assign updates m else m) db
    end.
Proof.
  unfold patch_movement, update_movement.
  destruct (patch_updates b) as [|a updates] eqn:U; [reflexivity|].
  cbn [List.length]. rewrite Nat2Z.inj_succ.
  destruct (Z.eqb_spec (Z.succ (Z.of_nat (List.length updates))) 0) as [E|_]; [lia|].
  destruct (Z.of_nat (List.length (filter _ db)) =? 0); [reflexivity|].
  destruct (find _ _); reflexivity.
Qed.

(** A patch that carries a comment and no flag stores the comment and
    marks it unread. *)
Lemma comment_patch_marks_unread (movementId : Z) (s : string) (db : list (movement N)) :
  snd (patch_movement movementId
         {| patch_farmerComment := Some s; patch_isCommentRead := None |} db)
  = map (fun m => if id m =? movementId
                  then assign (assign m (SetFarmerComment s)) (SetIsCommentRead false)
                  else m) db.
Proof.
  rewrite patch_movement_stored. reflexivity.
Qed.

(** A patch that carries only the flag [true] sets the flag, keeps every
    comment, and changes nothing when it is applied again. *)
Lemma read_patch_idempotent (movementId : Z) (db : list (movement N)) :
  let read := {| patch_farmerComment := None; patch_isCommentRead := Some true |} in
  let once := snd (patch_movement movementId read db) in
  map farmerComment once = map farmerComment db
  /\ snd (patch_movement movementId read once) = once
  /\ Forall (fun m => id m = movementId -> isCommentRead m = Some true) once.
Proof.
  intros read once. subst once read. rewrite !patch_movement_stored. cbn.
  repeat split.
  - rewrite map_map. apply map_ext. intros m. destruct (id m =? movementId); reflexivity.
  - rewrite map_map. apply map_ext. intros m.
    destruct (id m =? movementId) eqn:E; cbn; rewrite E; reflexivity.
  - apply Forall_map, Forall_forall. intros m _.
    destruct (Z.eqb_spec (id m) movementId); cbn; [reflexivity|contradiction].
Qed.

(** A patch that carries a comment and a flag stores the comment and the
    flag it carries: the assignment pushed last is the one that counts. *)
Lemma comment_and_flag_keeps_flag (movementId : Z) (s : string) (r : bool)
    (db : list (movement N)) :
  snd (patch_movement movementId
         {| patch_farmerComment := Some s; patch_isCommentRead := Some r |} db)
  = map (fun m => if id m =? movementId
                  then assign (assign m (SetFarmerComment s)) (SetIsCommentRead r)
                  else m) db.
Proof.
  rewrite patch_movement_stored. reflexivity.
Qed.

End PatchFacts.

(** C7 on the code: a patch that carries a comment and the flag [true]
    stores the comment and leaves the flag at [true], because the SET list
    names [isCommentRead] twice and the later assignment is the one kept. *)
Theorem comment_with_flag_stays_read :
  let out := patch_movement 1 comment_and_flag [acknowledged] in
  http_status (fst out) = 200
  /\ map farmerComment (snd out) = [Some "Poids incorrect"]
  /\ map isCommentRead (snd out) = [Some true]
  /\ patch_updates comment_and_flag
     = [SetFarmerComment "Poids incorrect"; SetIsCommentRead false; SetIsCommentRead true].
Proof.
  repeat split.
Qed.

(** ** The users *)

Lemma push_if_cases (field : option string) (column : string -> Users.assignment) :
  Users.push_if field column = []
  \/ exists v, field = Some v /\ Users.push_if field column = [column v].
Proof.
  unfold Users.push_if. destruct field as [v|]; [|left; reflexivity].
  destruct (truthy_string v); [right; exists v; split; reflexivity|left; reflexivity].
Qed.

(** Whatever the body, the updated row ends with the [clientId] that the
    handler computes from [role] and [clientId] of the body alone. *)
Lemma clientId_after_updates (bcrypt_hash : string -> string) (b : Users.user_body)
    (u : Users.user) :
  Users.clientId (fold_left Users.assign (Users.put_updates bcrypt_hash b) u)
  = Users.clientId_param b.
Proof.
  unfold Users.put_updates. rewrite !fold_left_app. cbn [fold_left].
  destruct (push_if_cases (Users.put_password b)
              (fun v => Users.SetPassword (bcrypt_hash v))) as [E|(v & _ & E)];
    rewrite E; reflexivity.
Qed.

(** The SET list is never empty, so the reply "No fields to update." is
    never given. *)
Lemma put_user_never_empty (bcrypt_hash : string -> string) (userId : Z)
    (b : Users.user_body) (users : list Users.user) :
  http_status (fst (Users.put_user bcrypt_hash userId b users)) <> 400.
Proof.
  unfold Users.put_user.
  assert (L : (Z.of_nat (List.length (Users.put_updates bcrypt_hash b)) =? 0) = false).
  { apply Z.eqb_neq. unfold Users.put_updates. rewrite !length_app. cbn. lia. }
  rewrite L.
  destruct (Users.violates_unique _ _ _); [cbn; lia|].
  unfold Users.update_user.
  destruct (Z.of_nat (List.length (filter _ users)) =? 0); [cbn; lia|].
  destruct (find _ _); cbn; lia.
Qed.

(** C8 on the code: the body [{ status: 'Suspended' }] suspends the farmer
    and also sets the [clientId] of the row to NULL, since the SET list
    always carries [clientId = ?]. *)
Theorem suspension_unlinks_farmer :
  forall bcrypt_hash : string -> string,
    let out := Users.put_user bcrypt_hash 2 suspend_only sample_users in
    http_status (fst out) = 200
    /\ map Users.status (snd out) = ["Active"; "Suspended"]
    /\ map Users.clientId sample_users = [None; Some 5]
    /\ map Users.clientId (snd out) = [None; None]
    /\ Users.put_updates bcrypt_hash suspend_only
       = [Users.SetStatus "Suspended"; Users.SetClientId None].
Proof.
  intros bcrypt_hash. repeat split.
Qed.

(** C9: deleting an existing user whose role is Admin is answered 403 and
    leaves the table as it is; deleting any other existing user is
    answered 204 and removes the rows with that id and no other row. *)
Theorem delete_user_spares_admins :
  forall (userId : Z) (users : list Users.user) (target : Users.user),
    find (fun u => Users.id u =? userId) users = Some target ->
    (Users.role target = "Admin" ->
     Users.delete_user userId users = (reply 403 "Cannot delete an admin user.", users))
    /\ (Users.role target <> "Admin" ->
        http_status (fst (Users.delete_user userId users)) = 204
        /\ http_body (fst (Users.delete_user userId users)) = Empty
        /\ forall u, In u (snd (Users.delete_user userId users))
                     <-> (In u users /\ Users.id u <> userId)).
Proof.
  intros userId users target F. unfold Users.delete_user. rewrite F. split.
  - intros A. rewrite A. reflexivity.
  - intros A. apply String.eqb_neq in A. rewrite A. cbn [fst snd http_status http_body].
    split; [reflexivity|]. split; [reflexivity|].
    intros u. rewrite filter_In, negb_true_iff, Z.eqb_neq. reflexivity.
Qed.

Lemma delete_user_spares_admins_witness :
  Users.delete_user 1 sample_users
  = (reply 403 "Cannot delete an admin user.", sample_users)
  /\ http_status (fst (Users.delete_user 2 sample_users)) = 204
  /\ map Users.id (snd (Users.delete_user 2 sample_users)) = [1].
Proof.
  split.
  - refine (proj1 (delete_user_spares_admins 1 sample_users _ eq_refl) eq_refl).
  - split; [|reflexivity].
    refine (proj1 (proj2 (delete_user_spares_admins 2 sample_users _ eq_refl) _)).
    discriminate.
Defined.

(** * Further properties of the handlers *)

(** ** The rows a run stores *)

Section StoredRows.

Context {N : JsNumber} {R : Runtime N}.

Lemma run_preserves (P : list (movement N) -> Prop) :
  (forall today b db, P db -> P (snd (post_movement today b db))) ->
  forall (requests : list (string * movement_body N)) (db : list (movement N)),
    P db -> P (run requests db).
Proof.
  intros Step requests.
  induction requests as [|[today b] requests IH]; intros db H.
  - exact H.
  - cbn. apply IH, Step, H.
Qed.

Lemma largest_of_count (a n : nat) :
  fold_right Z.max 0 (map Z.of_nat (seq a n))
  = match n with O => 0 | S _ => Z.of_nat (a + n - 1) end.
Proof.
  revert a. induction n as [|n IH]; intros a; [reflexivity|].
  cbn [seq map fold_right]. rewrite IH. destruct n; lia.
Qed.

Lemma lastID_of_count (db : list (movement N)) :
  map id db = map Z.of_nat (seq 1 (List.length db)) ->
  lastID db = Z.of_nat (List.length db) + 1.
Proof.
  intros H. unfold lastID. rewrite H, largest_of_count.
  destruct (List.length db); lia.
Qed.

Lemma changes_at_most_one (k : Z) (db : list (movement N)) :
  NoDup (map id db) ->
  Z.of_nat (List.length (filter (fun m => id m =? k) db)) <= 1.
Proof.
  induction db as [|m db IH]; intros D; cbn [filter]; [cbn; lia|].
  inversion D as [|? ? NotIn D']; subst.
  destruct (Z.eqb_spec (id m) k) as [E|_]; [|apply IH, D'].
  assert (Z0 : filter (fun m0 => id m0 =? k) db = []).
  { destruct (filter (fun m0 => id m0 =? k) db) as [|m' rest] eqn:F; [reflexivity|].
    exfalso. apply NotIn.
    assert (I : In m' (filter (fun m0 => id m0 =? k) db)) by (rewrite F; left; reflexivity).
    apply filter_In in I. destruct I as [I K]. apply Z.eqb_eq in K.
    rewrite E, <- K. apply in_map, I. }
  cbn [List.length]. rewrite Z0. cbn. lia.
Qed.

End StoredRows.

(** X1: the movements stored by any list of requests handled from the
    empty ledger carry the ids 1, 2, ..., n in the order of their
    insertion; so no two rows share an id, and the UPDATE of a PATCH
    changes one row at most. *)
Theorem movement_ids_count_up :
  forall (N : JsNumber) (R : Runtime N) (requests : list (string * movement_body N)),
    let db := run requests [] in
    map id db = map Z.of_nat (seq 1 (List.length db))
    /\ NoDup (map id db)
    /\ forall (updates : list assignment) (movementId : Z),
         0 <= fst (update_movement updates movementId db) <= 1.
Proof.
  intros N R requests db.
  assert (Ids : map id db = map Z.of_nat (seq 1 (List.length db))).
  { subst db. apply (run_preserves
      (fun db => map id db = map Z.of_nat (seq 1 (List.length db)))); [|reflexivity].
    intros today b db H.
    destruct (post_movement_outcome today b db)
      as [[_ E]|(c & t & p & w & u & _ & _ & _ & E)]; rewrite E; [exact H|].
    cbn [snd]. rewrite length_app, map_app. cbn [List.length map new_row id].
    rewrite Nat.add_1_r, seq_S, map_app, <- H. cbn [map].
    rewrite (lastID_of_count db H). do 2 f_equal. lia. }
  assert (D : NoDup (map id db)).
  { rewrite Ids. generalize (seq_NoDup (List.length db) 1).
    generalize (seq 1 (List.length db)). intros l.
    induction 1 as [|x l NotIn _ IH]; cbn; constructor; [|exact IH].
    intros I. apply in_map_iff in I. destruct I as (y & E & I).
    apply Nat2Z.inj in E. subst y. exact (NotIn I). }
  repeat split; try assumption.
  - cbn. lia.
  - cbn [update_movement fst]. pose proof (changes_at_most_one movementId db D). lia.
Qed.


(** ** What one stored movement does to the balances *)

(** X3: a request that is answered 201 adds its net weight times the sign
    of its type to the product balance of its client and product, adds its
    box counts (those above 0) times that sign to the box balances of its
    client, and leaves the product balance of every other client or
    product and the summary of every other client as they were. *)
Theorem stored_movement_moves_one_balance :
  forall (N : JsNumber) (R : Runtime N) (today : string) (b : movement_body N)
         (db : list (movement N)) (c : Z) (t p : string) (w : num) (u : Z),
    required_fields b = Some (c, t, p, w, u) ->
    http_status (fst (post_movement today b db)) = 201 ->
    let db' := snd (post_movement today b db) in
    let boxes (count : Z) := if count >? 0 then count else 0 in
    getProductStockForClient c p db'
    = (getProductStockForClient c p db + derived_weight b w * js_int (multiplier t))%js
    /\ plasticBoxes (getClientStockSummary c db')
       = plasticBoxes (getClientStockSummary c db)
         + boxes (or_zero_int (req_plasticBoxCount b)) * multiplier t
    /\ woodBoxes (getClientStockSummary c db')
       = woodBoxes (getClientStockSummary c db)
         + boxes (or_zero_int (req_woodBoxCount b)) * multiplier t
    /\ (forall c' p', c' <> c \/ p' <> p ->
          getProductStockForClient c' p' db' = getProductStockForClient c' p' db)
    /\ (forall c', c' <> c ->
          getClientStockSummary c' db' = getClientStockSummary c' db).
Proof.
  intros N R today b db c t p w u Q S db' boxes. subst db' boxes.
  destruct (post_movement_outcome today b db)
    as [[S' _]|(c0 & t0 & p0 & w0 & u0 & Q0 & _ & _ & E)].
  { rewrite S' in S. discriminate S. }
  rewrite Q in Q0. injection Q0 as <- <- <- <- <-.
  rewrite E. cbn [snd]. clear E S.
  split; [|split; [|split; [|split]]].
  - rewrite product_stock_app. cbn [new_row clientId product productWeight type].
    rewrite Z.eqb_refl, String.eqb_refl. reflexivity.
  - rewrite summary_app. cbn [new_row clientId]. rewrite Z.eqb_refl.
    cbn [summary_step plasticBoxes new_row plasticBoxCount type].
    rewrite add_boxes_count.
    destruct (or_zero_int (req_plasticBoxCount b) >? 0); reflexivity.
  - rewrite summary_app. cbn [new_row clientId]. rewrite Z.eqb_refl.
    cbn [summary_step woodBoxes new_row woodBoxCount type].
    rewrite add_boxes_count.
    destruct (or_zero_int (req_woodBoxCount b) >? 0); reflexivity.
  - intros c' p' D. rewrite product_stock_app. cbn [new_row clientId product].
    destruct (Z.eqb_spec c c') as [<-|]; [|reflexivity].
    destruct (String.eqb_spec p p') as [<-|]; [|reflexivity].
    destruct D as [D|D]; contradiction.
  - intros c' D. rewrite summary_app. cbn [new_row clientId].
    destruct (Z.eqb_spec c c') as [<-|]; [contradiction|reflexivity].
Qed.

Lemma stored_movement_moves_one_balance_witness :
  (getProductStockForClient 1 "Pommes"
     (snd (post_movement "2024-05-02" (withdrawal 90) ledger_90)) == 0)%Q
  /\ plasticBoxes (getClientStockSummary 1
       (snd (post_movement "2024-05-02" (withdrawal 90) ledger_90))) = 2.
Proof.
  destruct (stored_movement_moves_one_balance Exact ExactRuntime "2024-05-02"
              (withdrawal 90) ledger_90 1 "out" "Pommes" 90%Q 1 eq_refl eq_refl)
    as (Weight & Plastic & _).
  split.
  - rewrite Weight. reflexivity.
  - rewrite Plastic. reflexivity.
Defined.

(** X4: the handler does not look at the sign of a box count.  A deposit
    with a gross weight above 0, a plastic box count below 0, a unit weight
    above 0 and no wood boxes is stored, with a net weight above its gross
    weight and with NULL in both plastic box columns. *)
Theorem negative_box_count_raises_net_weight :
  forall (R : Runtime Exact) (today : string) (b : movement_body Exact)
         (db : list (movement Exact)) (c : Z) (p : string) (w : Q) (u : Z)
         (n : Z) (q : Q),
    required_fields b = Some (c, "in", p, w, u) ->
    (0 < w)%Q ->
    req_plasticBoxCount b = Some n -> n < 0 ->
    req_plasticBoxWeight b = Some q -> (0 < q)%Q ->
    req_woodBoxCount b = None ->
    exists row,
      post_movement today b db
      = ({| http_status := 201; http_body := Json row |}, db ++ [row])
      /\ (totalWeight row < productWeight row)%Q
      /\ (productWeight row == w - inject_Z n * q)%Q
      /\ plasticBoxCount row = None
      /\ plasticBoxWeight row = None.
Proof.
  intros R today b db c p w u n q Req Wpos Cn Nneg Cq Qpos Wood.
  assert (On : or_zero_int (req_plasticBoxCount b) = n).
  { rewrite Cn. cbn. unfold truthy_int. destruct (Z.eqb_spec n 0); [lia|reflexivity]. }
  assert (Oq : or_zero (req_plasticBoxWeight b) = q).
  { rewrite Cq. unfold or_zero, truthy_num. cbn [js_eq js_int Exact].
    rewrite Qeq_bool_refl.
    destruct (Qeq_bool q (inject_Z 0)) eqn:E; [|reflexivity].
    apply Qeq_bool_iff in E. rewrite E in Qpos. exfalso. apply (Qlt_irrefl 0), Qpos. }
  assert (D : (derived_weight b w == w - inject_Z n * q)%Q).
  { unfold derived_weight, net_weight. rewrite On, Oq, Wood. cbn. ring. }
  assert (Neg : (inject_Z n * q < 0)%Q).
  { assert (I : (inject_Z n < 0)%Q) by (unfold Qlt; cbn; lia).
    setoid_replace (inject_Z n * q)%Q with (- (- inject_Z n * q))%Q by ring.
    assert (P : (0 < - inject_Z n * q)%Q) by (apply Qmult_lt_0_compat; lra).
    lra. }
  assert (L : (derived_weight b w < js_int 0)%js = false).
  { cbn [js_lt js_int Exact]. apply Qltb_false. rewrite D.
    change (inject_Z 0) with 0%Q. lra. }
  exists (new_row today b c "in" p w u db).
  split; [|split; [|split; [|split]]].
  - rewrite (post_movement_checked _ _ _ _ _ _ _ _ Req L). reflexivity.
  - cbn [new_row totalWeight productWeight]. rewrite D. lra.
  - exact D.
  - cbn [new_row plasticBoxCount]. rewrite On.
    destruct (Z.gtb_spec n 0); [lia|reflexivity].
  - cbn [new_row plasticBoxWeight]. rewrite On.
    destruct (Z.gtb_spec n 0); [lia|reflexivity].
Qed.

Lemma negative_box_count_raises_net_weight_witness :
  exists row,
    post_movement "2024-05-03" deposit_negative_boxes []
    = ({| http_status := 201; http_body := Json row |}, [row])
    /\ (productWeight row == 20)%Q
    /\ plasticBoxCount row = None.
Proof.
  destruct (negative_box_count_raises_net_weight ExactRuntime "2024-05-03"
              deposit_negative_boxes [] 1 "Pommes" 10%Q 1 (-2) 5%Q
              eq_refl eq_refl eq_refl eq_refl eq_refl eq_refl eq_refl)
    as (row & E & _ & W & C & _).
  exists row. split; [exact E|]. split; [|exact C].
  rewrite W. reflexivity.
Defined.

(** ** PATCH and the listing of the movements *)

Section PatchFrame.

Context {N : JsNumber} {R : Runtime N}.

Lemma same_entry_refl (m : movement N) : same_entry m m.
Proof. repeat split. Qed.

Lemma assign_same_entry (m : movement N) (a : assignment) : same_entry m (assign m a).
Proof. destruct a; repeat split. Qed.

Lemma assign_all_same_entry (updates : list assignment) (m : movement N) :
  same_entry m (fold_left assign updates m).
Proof.
  revert m. induction updates as [|a updates IH]; intros m; cbn.
  - apply same_entry_refl.
  - destruct (IH (assign m a)) as (A1 & A2 & A3 & A4 & A5 & A6 & A7 & A8 & A9 & A10 & A11 & A12 & A13).
    destruct (assign_same_entry m a) as (B1 & B2 & B3 & B4 & B5 & B6 & B7 & B8 & B9 & B10 & B11 & B12 & B13).
    repeat split; congruence.
Qed.

Lemma fold_filter_map {A B : Type} (f : A -> A) (sel : A -> bool) (g : B -> A -> B)
    (l : list A) (acc : B) :
  (forall x, sel (f x) = sel x) ->
  (forall a x, g a (f x) = g a x) ->
  fold_left g (filter sel (map f l)) acc = fold_left g (filter sel l) acc.
Proof.
  intros Hs Hg. revert acc. induction l as [|x l IH]; intros acc; cbn; [reflexivity|].
  rewrite Hs. destruct (sel x); cbn; [rewrite Hg|]; apply IH.
Qed.

(** Rows that differ in the farmer comment and the read flag only give the
    same balances. *)
Lemma balances_of_same_entries (f : movement N -> movement N) (db : list (movement N)) :
  (forall m, same_entry m (f m)) ->
  (forall c p, getProductStockForClient c p (map f db) = getProductStockForClient c p db)
  /\ (forall c, getClientStockSummary c (map f db) = getClientStockSummary c db).
Proof.
  intros H. split.
  - intros c p. unfold getProductStockForClient, select_client_product.
    apply fold_filter_map.
    + intros m. destruct (H m) as (_ & -> & _ & -> & _). reflexivity.
    + intros a m. destruct (H m) as (_ & _ & -> & _ & _ & _ & _ & _ & _ & -> & _).
      reflexivity.
  - intros c. unfold getClientStockSummary, select_client.
    apply fold_filter_map.
    + intros m. destruct (H m) as (_ & -> & _). reflexivity.
    + intros s m.
      destruct (H m) as (_ & _ & Ty & _ & Tw & Pc & _ & Wc & _ & Pw & _).
      unfold summary_step. rewrite Ty, Tw, Pc, Wc, Pw. reflexivity.
Qed.

Lemma patched_same_entry (movementId : Z) (updates : list assignment) (m : movement N) :
  same_entry m (if id m =? movementId then fold_left assign updates m else m).
Proof.
  destruct (id m =? movementId); [apply assign_all_same_entry|apply same_entry_refl].
Qed.

Lemma patch_movement_maps (movementId : Z) (b : patch_body) (db : list (movement N)) :
  snd (patch_movement movementId b db)
  = map (fun m => if id m =? movementId
                  then fold_left assign (patch_updates b) m else m) db.
Proof.
  rewrite patch_movement_stored.
  destruct (patch_updates b) as [|a updates]; [|reflexivity].
  cbn [fold_left]. rewrite <- (map_id db) at 1. apply map_ext.
  intros m. destruct (id m =? movementId); reflexivity.
Qed.

End PatchFrame.

(** X5: a PATCH changes no balance.  Whatever its id and body, the product
    balance of every client and product and the summary of every client
    are the same before and after, and the rows keep their order and every
    column other than [farmerComment] and [isCommentRead]. *)
Theorem patch_leaves_the_ledger :
  forall (N : JsNumber) (R : Runtime N) (movementId : Z) (b : patch_body)
         (db : list (movement N)),
    let db' := snd (patch_movement movementId b db) in
    (forall c p, getProductStockForClient c p db' = getProductStockForClient c p db)
    /\ (forall c, getClientStockSummary c db' = getClientStockSummary c db)
    /\ Forall2 same_entry db db'.
Proof.
  intros N R movementId b db db'. subst db'. rewrite patch_movement_maps.
  destruct (balances_of_same_entries
              (fun m => if id m =? movementId
                        then fold_left assign (patch_updates b) m else m) db
              (fun m => patched_same_entry movementId (patch_updates b) m)) as [P S].
  split; [exact P|]. split; [exact S|]. clear P S.
  induction db as [|m db IH]; cbn; constructor.
  - apply patched_same_entry.
  - exact IH.
Qed.

(** X6: the three answers of a PATCH.  A body with neither a string
    [farmerComment] nor a boolean [isCommentRead] is answered 400; a body
    with one of them and an id that no row has is answered 404; in both
    cases the table stays as it is.  With one of them and an id that a row
    has, the answer is 200 with a stored row of that id, its flag a
    boolean. *)
Theorem patch_movement_answers :
  forall (N : JsNumber) (R : Runtime N) (movementId : Z) (b : patch_body)
         (db : list (movement N)),
    let out := patch_movement movementId b db in
    (patch_farmerComment b = None /\ patch_isCommentRead b = None ->
     out = (reply 400 "No fields to update", db))
    /\ (patch_farmerComment b <> None \/ patch_isCommentRead b <> None ->
        (forall m, In m db -> id m <> movementId) ->
        out = (reply 404 "Movement not found.", db))
    /\ (patch_farmerComment b <> None \/ patch_isCommentRead b <> None ->
        (exists m, In m db /\ id m = movementId) ->
        http_status (fst out) = 200
        /\ exists row,
             In row (snd out) /\ id row = movementId
             /\ http_body (fst out) = Json (with_boolean_flag row)
             /\ isCommentRead (with_boolean_flag row) <> None).
Proof.
  intros N R movementId b db out. subst out.
  assert (Len : patch_farmerComment b <> None \/ patch_isCommentRead b <> None ->
                (Z.of_nat (List.length (patch_updates b)) =? 0) = false).
  { intros H. apply Z.eqb_neq. unfold patch_updates.
    destruct (patch_farmerComment b), (patch_isCommentRead b); cbn; try lia.
    destruct H as [H|H]; contradiction. }
  split; [|split].
  - intros [F I]. unfold patch_movement, patch_updates. rewrite F, I. reflexivity.
  - intros H No. unfold patch_movement. rewrite (Len H). unfold update_movement.
    assert (F : filter (fun m => id m =? movementId) db = []).
    { induction db as [|m db IH]; [reflexivity|]. cbn.
      destruct (Z.eqb_spec (id m) movementId) as [E|_].
      - exfalso. apply (No m); [left; reflexivity|exact E].
      - apply IH. intros m' I. apply No. right. exact I. }
    rewrite F. cbn [List.length Z.of_nat Z.eqb]. f_equal.
    rewrite <- (map_id db) at 2. apply map_ext_in. intros m I.
    destruct (Z.eqb_spec (id m) movementId) as [E|_]; [|reflexivity].
    exfalso. apply (No m I E).
  - intros H (m & I & E). unfold patch_movement. rewrite (Len H).
    unfold update_movement.
    assert (F : (Z.of_nat (List.length (filter (fun m => id m =? movementId) db)) =? 0)
                = false).
    { apply Z.eqb_neq.
      assert (I' : In m (filter (fun m => id m =? movementId) db)).
      { apply filter_In. split; [exact I|]. apply Z.eqb_eq, E. }
      destruct (filter (fun m => id m =? movementId) db); [contradiction|]. cbn. lia. }
    rewrite F.
    set (stored := map _ db).
    destruct (find (fun m => id m =? movementId) stored) as [row|] eqn:Found.
    + cbn [fst snd http_status http_body]. split; [reflexivity|].
      apply find_some in Found. destruct Found as [In' Id'].
      exists row. repeat split; try assumption.
      * apply Z.eqb_eq, Id'.
      * cbn. discriminate.
    + exfalso.
      assert (In' : In (if id m =? movementId
                        then fold_left assign (patch_updates b) m else m) stored).
      { subst stored.
        apply (in_map (fun m => if id m =? movementId
                                then fold_left assign (patch_updates b) m else m)).
        exact I. }
      apply (find_none _ _ Found) in In'.
      destruct (patched_same_entry movementId (patch_updates b) m) as (Id' & _).
      rewrite Id' in In'. apply Z.eqb_neq in In'. contradiction.
Qed.

Lemma patch_movement_answers_witness :
  patch_movement 7 Client.mark_read_body [acknowledged]
  = (reply 404 "Movement not found.", [acknowledged])
  /\ http_status (fst (patch_movement 1 Client.mark_read_body [acknowledged])) = 200.
Proof.
  destruct (patch_movement_answers Exact ExactRuntime 7 Client.mark_read_body
              [acknowledged]) as (_ & Unknown & _).
  destruct (patch_movement_answers Exact ExactRuntime 1 Client.mark_read_body
              [acknowledged]) as (_ & _ & Known).
  split.
  - apply Unknown; [right; discriminate|].
    intros m [<-|[]]. discriminate.
  - apply Known; [right; discriminate|].
    exists acknowledged. split; [left; reflexivity|reflexivity].
Defined.

Section Badge.

Context {N : JsNumber} {R : Runtime N}.

Lemma filter_length_le {A B : Type} (f g : A -> B) (sel sel' : B -> bool) (l : list A) :
  (forall x, sel (f x) = true -> sel' (g x) = true) ->
  Z.of_nat (List.length (filter sel (map f l)))
  <= Z.of_nat (List.length (filter sel' (map g l))).
Proof.
  intros H. induction l as [|x l IH]; cbn [map filter]; [lia|].
  destruct (sel (f x)) eqn:E.
  - rewrite (H x E). cbn [List.length]. lia.
  - destruct (sel' (g x)); cbn [List.length]; lia.
Qed.

End Badge.

(** X7: after the request [handleFarmerCommentSave] sends for a movement,
    every listed row of that id carries the trimmed comment and the flag
    [false], and counts as an unread anomaly for the user who recorded it
    exactly when the trimmed comment is not empty; the rows of other ids
    are the rows they were. *)
Theorem farmer_comment_reaches_the_badge :
  forall (N : JsNumber) (R : Runtime N) (movementId : Z) (comment : string)
         (db : list (movement N)),
    let db' := snd (patch_movement movementId (Client.farmer_comment_body comment) db) in
    Forall (fun m : movement N =>
              id m = movementId ->
              farmerComment m = Some (trim comment)
              /\ isCommentRead m = Some false
              /\ Client.is_unread_for (recordedByUserId m) m = truthy_string (trim comment))
      (get_movements db')
    /\ Forall2 (fun m m' : movement N => id m <> movementId -> m' = m) db db'.
Proof.
  intros N R movementId comment db db'. subst db'.
  rewrite patch_movement_maps. unfold get_movements. split.
  - rewrite map_map. apply Forall_map, Forall_forall. intros m _.
    destruct (Z.eqb_spec (id m) movementId) as [E|D].
    + intros _. cbn. unfold Client.is_unread_for. cbn.
      rewrite Z.eqb_refl, andb_true_r. repeat split.
    + cbn [with_boolean_flag assign id]. intros E. contradiction.
  - induction db as [|m db IH]; cbn [map]; constructor; [|exact IH].
    intros D. apply Z.eqb_neq in D. rewrite D. reflexivity.
Qed.

(** X8: after the request [renderViewCommentModal] sends for a movement,
    every listed row of that id has the flag [true] and counts as unread
    for no user; the farmer comments are the ones stored before; sending
    the request again changes nothing; and the unread count of no user
    goes up. *)
Theorem marking_read_clears_the_badge :
  forall (N : JsNumber) (R : Runtime N) (movementId : Z) (db : list (movement N)),
    let db' := snd (patch_movement movementId Client.mark_read_body db) in
    Forall (fun m : movement N =>
              id m = movementId ->
              isCommentRead m = Some true
              /\ forall userId, Client.is_unread_for userId m = false)
      (get_movements db')
    /\ map farmerComment db' = map farmerComment db
    /\ snd (patch_movement movementId Client.mark_read_body db') = db'
    /\ forall userId,
         Client.unreadCount userId (get_movements db')
         <= Client.unreadCount userId (get_movements db).
Proof.
  intros N R movementId db db'. subst db'.
  rewrite !patch_movement_maps. unfold get_movements.
  split; [|split; [|split]].
  - rewrite map_map. apply Forall_map, Forall_forall. intros m _.
    destruct (Z.eqb_spec (id m) movementId) as [E|D].
    + intros _. cbn. split; [reflexivity|]. intros userId.
      unfold Client.is_unread_for. cbn. rewrite andb_false_r. reflexivity.
    + cbn [with_boolean_flag assign id]. intros E. contradiction.
  - rewrite map_map. apply map_ext. intros m.
    destruct (id m =? movementId); reflexivity.
  - rewrite map_map. apply map_ext. intros m.
    destruct (id m =? movementId) eqn:E; cbn; rewrite E; reflexivity.
  - intros userId. unfold Client.unreadCount. rewrite map_map.
    apply filter_length_le. intros m.
    destruct (id m =? movementId); [|intros H; exact H].
    unfold Client.is_unread_for. cbn. rewrite andb_false_r. discriminate.
Qed.

(** ** The balances the browser shows *)

Section BrowserBalances.

Context {N : JsNumber}.



End BrowserBalances.


(** ** The stock product by product *)

Section Details.

Context {N : JsNumber}.

Local Abbreviation no_stock :=
  {| sum_totalWeight := js_int 0; sum_productWeight := js_int 0;
     plasticBoxes := 0; woodBoxes := 0 |}.

Lemma map_get_set {A : Type} (k p : string) (v : A) (entries : list (string * A)) :
  Client.map_get p (Client.map_set k v entries)
  = if String.eqb k p then Some v else Client.map_get p entries.
Proof.
  induction entries as [|[k' v'] entries IH]; cbn.
  - destruct (String.eqb k p); reflexivity.
  - destruct (String.eqb_spec k' k) as [->|D]; cbn.
    + destruct (String.eqb k p); reflexivity.
    + rewrite IH. destruct (String.eqb_spec k p) as [<-|_]; [|reflexivity].
      destruct (String.eqb_spec k' k); [contradiction|reflexivity].
Qed.

Lemma map_set_keys {A : Type} (k : string) (v : A) (entries : list (string * A)) :
  NoDup (map fst entries) ->
  NoDup (map fst (Client.map_set k v entries))
  /\ forall p, In p (map fst (Client.map_set k v entries)) <-> p = k \/ In p (map fst entries).
Proof.
  induction entries as [|[k' v'] entries IH]; cbn; intros D.
  - split; [repeat constructor; intros []|]. intros p. split.
    + intros [<-|[]]. left. reflexivity.
    + intros [->|[]]. left. reflexivity.
  - inversion D as [|? ? NotIn D']; subst.
    destruct (String.eqb_spec k' k) as [->|Dk]; cbn.
    + split; [constructor; assumption|]. intros p. cbn. intuition congruence.
    + destruct (IH D') as [ND Keys]. split.
      * constructor; [|exact ND]. intros I. apply Keys in I.
        destruct I as [E|I]; [congruence|contradiction].
      * intros p. cbn. rewrite Keys. intuition congruence.
Qed.

Lemma map_get_In {A : Type} (k : string) (v : A) (entries : list (string * A)) :
  NoDup (map fst entries) ->
  (In (k, v) entries <-> Client.map_get k entries = Some v).
Proof.
  induction entries as [|[k' v'] entries IH]; cbn; intros D.
  - split; [intros []|discriminate].
  - inversion D as [|? ? NotIn D']; subst.
    destruct (String.eqb_spec k' k) as [->|Dk].
    + split.
      * intros [E|I]; [congruence|]. exfalso. apply NotIn.
        apply (in_map fst) in I. exact I.
      * intros E. left. congruence.
    + rewrite <- (IH D'). split; [|tauto].
      intros [E|I]; [congruence|exact I].
Qed.

(** The entry a row leaves in the map is the step of the server's summary
    on the entry it found. *)
Lemma details_step_get (entries : list (string * summary N)) (m : movement N) (p : string) :
  Client.map_get p (Client.details_step entries m)
  = if String.eqb (product m) p
    then Some (summary_step
                 (match Client.map_get p entries with
                  | Some stock => stock
                  | None => no_stock
                  end) m)
    else Client.map_get p entries.
Proof.
  unfold Client.details_step. rewrite map_get_set.
  destruct (String.eqb_spec (product m) p) as [<-|_]; [|reflexivity].
  f_equal. unfold summary_step. rewrite !add_boxes_count.
  f_equal.
  - destruct (plasticBoxCount m) as [n|]; cbn; [|reflexivity].
    unfold truthy_int. destruct (Z.eqb_spec n 0) as [->|]; reflexivity.
  - destruct (woodBoxCount m) as [n|]; cbn; [|reflexivity].
    unfold truthy_int. destruct (Z.eqb_spec n 0) as [->|]; reflexivity.
Qed.

Lemma details_fold_get (rows : list (movement N)) (entries : list (string * summary N))
    (p : string) :
  Client.map_get p (fold_left Client.details_step rows entries)
  = match filter (fun m => String.eqb (product m) p) rows with
    | [] => Client.map_get p entries
    | mine =>
        Some (fold_left summary_step mine
                (match Client.map_get p entries with
                 | Some stock => stock
                 | None => no_stock
                 end))
    end.
Proof.
  revert entries. induction rows as [|m rows IH]; intros entries; [reflexivity|].
  cbn [fold_left filter]. rewrite IH, details_step_get.
  destruct (String.eqb (product m) p); [|reflexivity].
  cbn [fold_left].
  destruct (filter (fun m0 => String.eqb (product m0) p) rows); reflexivity.
Qed.

Lemma details_fold_keys (rows : list (movement N)) (entries : list (string * summary N)) :
  NoDup (map fst entries) ->
  NoDup (map fst (fold_left Client.details_step rows entries)).
Proof.
  revert entries. induction rows as [|m rows IH]; intros entries D; [exact D|].
  cbn [fold_left]. apply IH. unfold Client.details_step.
  apply map_set_keys, D.
Qed.

Lemma sort_insert_permutation {A : Type} (compare : A -> A -> Z) (x : A) (l : list A) :
  Permutation (Client.sort_insert compare x l) (x :: l).
Proof.
  induction l as [|y l IH]; cbn; [apply Permutation_refl|].
  destruct (compare x y <=? 0); [apply Permutation_refl|].
  apply Permutation_trans with (y :: x :: l); [constructor; exact IH|apply perm_swap].
Qed.

Lemma sort_permutation {A : Type} (compare : A -> A -> Z) (l : list A) :
  Permutation (Client.sort compare l) l.
Proof.
  induction l as [|x l IH]; cbn; [constructor|].
  apply Permutation_trans with (x :: Client.sort compare l).
  - apply sort_insert_permutation.
  - constructor. exact IH.
Qed.

Lemma filter_keys_NoDup {A : Type} (sel : string * A -> bool) (l : list (string * A)) :
  NoDup (map fst l) -> NoDup (map fst (filter sel l)).
Proof.
  induction l as [|x l IH]; cbn; intros D; [constructor|].
  inversion D as [|? ? NotIn D']; subst.
  destruct (sel x); cbn; [|apply IH, D'].
  constructor; [|apply IH, D'].
  intros I. apply NotIn. apply in_map_iff in I. destruct I as (y & E & I).
  apply filter_In in I. rewrite <- E. apply in_map, I.
Qed.

Lemma select_product_of_client (c : Z) (p : string) (rows : list (movement N)) :
  filter (fun m => String.eqb (product m) p) (filter (fun m => clientId m =? c) rows)
  = select_client_product c p rows.
Proof.
  unfold select_client_product.
  induction rows as [|m rows IH]; cbn; [reflexivity|].
  destruct (clientId m =? c); cbn; [|exact IH].
  destruct (String.eqb (product m) p); cbn; [f_equal|]; exact IH.
Qed.

End Details.

(** X10: the products [getClientStockDetailsByProduct] lists for a client
    are, each once, the products of the rows of the client whose product
    balance, as the server computes it, is above 0.005; and the figures
    listed with a product are the server's summary taken over the rows of
    that client and product. *)
Theorem product_details_are_the_servers :
  forall (N : JsNumber) (near_zero : num) (localeCompare : string -> string -> Z)
         (c : Z) (rows : list (movement N)),
    let listed := Client.getClientStockDetailsByProduct near_zero localeCompare c rows in
    let stock_of (p : string) :=
      fold_left summary_step (select_client_product c p rows)
        {| sum_totalWeight := js_int 0; sum_productWeight := js_int 0;
           plasticBoxes := 0; woodBoxes := 0 |} in
    NoDup (map fst listed)
    /\ (forall p, sum_productWeight (stock_of p) = getProductStockForClient c p rows)
    /\ (forall p stock,
          In (p, stock) listed
          <-> (select_client_product c p rows <> []
               /\ stock = stock_of p
               /\ (getProductStockForClient c p rows > near_zero)%js = true)).
Proof.
  intros N near_zero localeCompare c rows listed stock_of.
  set (entries := fold_left Client.details_step
                    (filter (fun m => clientId m =? c) rows) []).
  assert (D : NoDup (map fst entries)).
  { apply details_fold_keys. constructor. }
  assert (P : Permutation listed
                (filter (fun item => (sum_productWeight (snd item) > near_zero)%js) entries)).
  { apply sort_permutation. }
  assert (W : forall p, sum_productWeight (stock_of p) = getProductStockForClient c p rows).
  { intros p. subst stock_of. cbn beta.
    destruct (summary_fold (select_client_product c p rows)
                {| sum_totalWeight := js_int 0; sum_productWeight := js_int 0;
                   plasticBoxes := 0; woodBoxes := 0 |}) as (_ & E & _).
    cbn in E. rewrite E. unfold getProductStockForClient. symmetry. apply fold_weights. }
  split; [|split; [exact W|]].
  - apply (Permutation_NoDup (Permutation_sym (Permutation_map fst P))).
    apply filter_keys_NoDup, D.
  - intros p stock.
    assert (G : Client.map_get p entries
                = match select_client_product c p rows with
                  | [] => None
                  | _ => Some (stock_of p)
                  end).
    { subst entries stock_of. rewrite details_fold_get, select_product_of_client.
      cbn beta. destruct (select_client_product c p rows); reflexivity. }
    split.
    + intros I. apply (Permutation_in _ P) in I. apply filter_In in I.
      destruct I as [I Above]. apply (map_get_In _ _ _ D) in I.
      rewrite G in I. destruct (select_client_product c p rows) eqn:S; [discriminate|].
      injection I as <-. cbn [snd] in Above. rewrite W in Above.
      repeat split; [discriminate|exact Above].
    + intros (NonEmpty & -> & Above).
      apply (Permutation_in _ (Permutation_sym P)). apply filter_In. split.
      * apply (map_get_In _ _ _ D). rewrite G.
        destruct (select_client_product c p rows); [contradiction|reflexivity].
      * cbn [snd]. rewrite W. exact Above.
Qed.

(** ** Login *)

Section LoginFacts.

Variable bcrypt_compare : string -> string -> bool.

Lemma login_with_fields (b : Accounts.login_body) (users : list Users.user)
    (username password role : string) :
  Accounts.login_username b = Some username ->
  Accounts.login_password b = Some password ->
  Accounts.login_role b = Some role ->
  truthy_string username = true -> truthy_string password = true ->
  truthy_string role = true ->
  Accounts.login bcrypt_compare b users
  = match Accounts.find_account username role users with
    | None => reply 401 "Invalid credentials or role."
    | Some user =>
        if negb (bcrypt_compare password (Users.password user)) then
          reply 401 "Invalid credentials or role."
        else if String.eqb (Users.status user) "Suspended" then
          reply 403 "This account has been suspended."
        else {| http_status := 200; http_body := Json (Users.listed user) |}
    end.
Proof.
  intros U P Ro Tu Tp Tr. unfold Accounts.login. rewrite U, P, Ro. cbn [truthy_opt].
  rewrite Tu, Tp, Tr. reflexivity.
Qed.

Lemma login_without_fields (b : Accounts.login_body) (users : list Users.user) :
  truthy_opt truthy_string (Accounts.login_username b)
  && truthy_opt truthy_string (Accounts.login_password b)
  && truthy_opt truthy_string (Accounts.login_role b) = false ->
  Accounts.login bcrypt_compare b users
  = reply 400 "Username, password, and role are required.".
Proof.
  intros H. unfold Accounts.login.
  destruct (truthy_opt truthy_string (Accounts.login_username b));
    destruct (truthy_opt truthy_string (Accounts.login_password b));
    destruct (truthy_opt truthy_string (Accounts.login_role b));
    try reflexivity; discriminate H.
Qed.

Lemma find_account_found (username role : string) (users : list Users.user)
    (user : Users.user) :
  Accounts.find_account username role users = Some user ->
  In user users
  /\ Accounts.lower (Users.username user) = Accounts.lower username
  /\ Users.role user = role.
Proof.
  intros F. apply find_some in F. destruct F as [I M].
  apply andb_true_iff in M. destruct M as [Mu Mr].
  apply String.eqb_eq in Mu, Mr. repeat split; assumption.
Qed.

(** A user that login gives back is a row of the table that is not
    suspended and whose hash the password matches. *)
Lemma login_success (b : Accounts.login_body) (users : list Users.user) :
  http_status (Accounts.login bcrypt_compare b users) = 200 ->
  exists user username password role,
    Accounts.login_username b = Some username
    /\ Accounts.login_password b = Some password
    /\ Accounts.login_role b = Some role
    /\ Accounts.find_account username role users = Some user
    /\ bcrypt_compare password (Users.password user) = true
    /\ Users.status user <> "Suspended"
    /\ Accounts.login bcrypt_compare b users
       = {| http_status := 200; http_body := Json (Users.listed user) |}.
Proof.
  intros S.
  destruct (truthy_opt truthy_string (Accounts.login_username b)
            && truthy_opt truthy_string (Accounts.login_password b)
            && truthy_opt truthy_string (Accounts.login_role b)) eqn:T.
  2:{ rewrite (login_without_fields b users T) in S. discriminate S. }
  apply andb_true_iff in T. destruct T as [T Tr].
  apply andb_true_iff in T. destruct T as [Tu Tp].
  destruct (Accounts.login_username b) as [username|] eqn:U; [|discriminate Tu].
  destruct (Accounts.login_password b) as [password|] eqn:P; [|discriminate Tp].
  destruct (Accounts.login_role b) as [role|] eqn:Ro; [|discriminate Tr].
  cbn in Tu, Tp, Tr.
  rewrite (login_with_fields b users username password role U P Ro Tu Tp Tr) in S |- *.
  destruct (Accounts.find_account username role users) as [user|] eqn:F;
    [|discriminate S].
  destruct (bcrypt_compare password (Users.password user)) eqn:C; [|discriminate S].
  cbn [negb] in S |- *.
  destruct (String.eqb_spec (Users.status user) "Suspended") as [E|D]; [discriminate S|].
  exists user, username, password, role. repeat split; assumption.
Qed.

End LoginFacts.

(** X11: what a login can answer.  With the three fields present and not
    empty, the answer is decided by the first row whose username is the
    given one up to the case of ASCII letters and whose role is the given
    one: 401 when there is none, the same 401 when the password does not
    match its hash, 403 when it matches and the row is suspended, and
    otherwise 200 with that row. *)
Theorem login_answers :
  forall (bcrypt_compare : string -> string -> bool) (b : Accounts.login_body)
         (users : list Users.user) (username password role : string),
    Accounts.login_username b = Some username ->
    Accounts.login_password b = Some password ->
    Accounts.login_role b = Some role ->
    username <> "" -> password <> "" -> role <> "" ->
    let out := Accounts.login bcrypt_compare b users in
    let wrong := reply 401 "Invalid credentials or role." in
    (Accounts.find_account username role users = None -> out = wrong)
    /\ (forall user,
          Accounts.find_account username role users = Some user ->
          In user users
          /\ Accounts.lower (Users.username user) = Accounts.lower username
          /\ Users.role user = role
          /\ (bcrypt_compare password (Users.password user) = false -> out = wrong)
          /\ (bcrypt_compare password (Users.password user) = true ->
              Users.status user = "Suspended" ->
              out = reply 403 "This account has been suspended.")
          /\ (bcrypt_compare password (Users.password user) = true ->
              Users.status user <> "Suspended" ->
              out = {| http_status := 200; http_body := Json (Users.listed user) |})).
Proof.
  intros bcrypt_compare b users username password role U P Ro Nu Np Nr out wrong.
  subst out wrong.
  apply String.eqb_neq in Nu, Np, Nr.
  assert (Tu : truthy_string username = true) by (unfold truthy_string; rewrite Nu; reflexivity).
  assert (Tp : truthy_string password = true) by (unfold truthy_string; rewrite Np; reflexivity).
  assert (Tr : truthy_string role = true) by (unfold truthy_string; rewrite Nr; reflexivity).
  rewrite (login_with_fields bcrypt_compare b users username password role
             U P Ro Tu Tp Tr).
  split.
  - intros ->. reflexivity.
  - intros user F. rewrite F.
    destruct (find_account_found username role users user F) as (I & L & Rl).
    repeat split; try assumption.
    + intros ->. reflexivity.
    + intros -> ->. reflexivity.
    + intros -> D. apply String.eqb_neq in D. cbn [negb]. rewrite D. reflexivity.
Qed.

Lemma login_answers_witness :
  Accounts.login sample_compare (credentials "ADMIN" "$2b$10$admins" "Admin") sample_users
  = reply 401 "Invalid credentials or role."
  /\ Accounts.login sample_compare (credentials "nobody" "secret" "Admin") sample_users
     = reply 401 "Invalid credentials or role.".
Proof.
  split.
  - destruct (login_answers sample_compare
                (credentials "ADMIN" "$2b$10$admins" "Admin") sample_users
                "ADMIN" "$2b$10$admins" "Admin" eq_refl eq_refl eq_refl)
      as (_ & Found); try discriminate.
    destruct (Found _ eq_refl) as (_ & _ & _ & Wrong & _).
    apply Wrong. reflexivity.
  - destruct (login_answers sample_compare
                (credentials "nobody" "secret" "Admin") sample_users
                "nobody" "secret" "Admin" eq_refl eq_refl eq_refl)
      as (Unknown & _); try discriminate.
    apply Unknown. reflexivity.
Defined.

(** ** Creating users *)

Lemma next_rowid_above (st : Accounts.store) (u : Users.user) :
  In u (Accounts.rows st) -> Users.id u < Accounts.next_rowid st.
Proof.
  unfold Accounts.next_rowid. generalize (Accounts.sequence st).
  induction (Accounts.rows st) as [|v rows IH]; intros s; cbn; [intros []|].
  intros [<-|I]; [lia|]. specialize (IH s I). lia.
Qed.

Lemma next_rowid_positive (st : Accounts.store) : 0 < Accounts.next_rowid st.
Proof.
  unfold Accounts.next_rowid.
  assert (0 <= fold_right Z.max 0 (map Users.id (Accounts.rows st))).
  { induction (Accounts.rows st) as [|u rows IH]; cbn; lia. }
  lia.
Qed.

Lemma next_rowid_above_sequence (st : Accounts.store) :
  Accounts.sequence st < Accounts.next_rowid st.
Proof.
  unfold Accounts.next_rowid. lia.
Qed.

Lemma post_user_created (bcrypt_hash : string -> string) (b : Accounts.new_user_body)
    (st : Accounts.store) (name username password role : string) :
  Accounts.new_name b = Some name -> Accounts.new_username b = Some username ->
  Accounts.new_password b = Some password -> Accounts.new_role b = Some role ->
  name <> "" -> username <> "" -> password <> "" -> role <> "" ->
  Accounts.username_taken username st = false ->
  let row :=
    {| Users.id := Accounts.next_rowid st; Users.username := username;
       Users.name := name; Users.role := role; Users.status := "Active";
       Users.password := bcrypt_hash password;
       Users.clientId :=
         if String.eqb role "Agriculteur" then Accounts.new_clientId b else None |} in
  Accounts.post_user bcrypt_hash b st
  = ({| http_status := 201; http_body := Json (Users.listed row) |},
     Accounts.insert row st).
Proof.
  intros Hn Hu Hp Hr Nn Nu Np Nr Free row. subst row.
  apply String.eqb_neq in Nn, Nu, Np, Nr.
  unfold Accounts.post_user. rewrite Hn, Hu, Hp, Hr. cbn [truthy_opt].
  unfold truthy_string. rewrite Nn, Nu, Np, Nr, Free. reflexivity.
Qed.

Lemma find_account_app (username role : string) (users more : list Users.user) :
  Accounts.find_account username role (users ++ more)
  = match Accounts.find_account username role users with
    | Some user => Some user
    | None => Accounts.find_account username role more
    end.
Proof.
  unfold Accounts.find_account.
  induction users as [|u users IH]; cbn; [reflexivity|].
  destruct (String.eqb _ _ && String.eqb _ _); [reflexivity|exact IH].
Qed.

(** X12: a user that has just been created can log in.  When the body has
    its four fields, the username is not taken, no earlier row has this
    username up to case together with this role, and [bcrypt.compare]
    accepts the password against the hash made of it, the user is stored
    as Active, with the client link of the body for an Agriculteur and
    without one otherwise, and a login with the same username, password
    and role is answered 200 with the row that the creation returned. *)
Theorem created_user_can_log_in :
  forall (bcrypt_hash : string -> string) (bcrypt_compare : string -> string -> bool)
         (b : Accounts.new_user_body) (st : Accounts.store)
         (name username password role : string),
    Accounts.new_name b = Some name -> Accounts.new_username b = Some username ->
    Accounts.new_password b = Some password -> Accounts.new_role b = Some role ->
    name <> "" -> username <> "" -> password <> "" -> role <> "" ->
    Accounts.username_taken username st = false ->
    Accounts.find_account username role (Accounts.rows st) = None ->
    bcrypt_compare password (bcrypt_hash password) = true ->
    let out := Accounts.post_user bcrypt_hash b st in
    exists row,
      fst out = {| http_status := 201; http_body := Json row |}
      /\ Users.listed_status row = "Active"
      /\ Users.listed_clientId row
         = (if String.eqb role "Agriculteur" then Accounts.new_clientId b else None)
      /\ Accounts.login bcrypt_compare
           {| Accounts.login_username := Some username;
              Accounts.login_password := Some password;
              Accounts.login_role := Some role |}
           (Accounts.rows (snd out))
         = {| http_status := 200; http_body := Json row |}.
Proof.
  intros bcrypt_hash bcrypt_compare b st name username password role
         Hn Hu Hp Hr Nn Nu Np Nr Free Fresh Match out. subst out.
  rewrite (post_user_created bcrypt_hash b st name username password role
             Hn Hu Hp Hr Nn Nu Np Nr Free).
  eexists. split; [reflexivity|]. split; [reflexivity|]. split; [reflexivity|].
  cbn [snd Accounts.insert Accounts.rows].
  assert (Tu : truthy_string username = true)
    by (unfold truthy_string; apply String.eqb_neq in Nu; rewrite Nu; reflexivity).
  assert (Tp : truthy_string password = true)
    by (unfold truthy_string; apply String.eqb_neq in Np; rewrite Np; reflexivity).
  assert (Tr : truthy_string role = true)
    by (unfold truthy_string; apply String.eqb_neq in Nr; rewrite Nr; reflexivity).
  rewrite (login_with_fields bcrypt_compare
             {| Accounts.login_username := Some username;
                Accounts.login_password := Some password;
                Accounts.login_role := Some role |}
             _ username password role eq_refl eq_refl eq_refl Tu Tp Tr).
  rewrite find_account_app, Fresh. unfold Accounts.find_account. cbn [find Users.username Users.role].
  rewrite !String.eqb_refl. cbn [andb Users.password Users.status].
  rewrite Match. reflexivity.
Qed.

Lemma created_user_can_log_in_witness :
  http_status
    (Accounts.login sample_compare (credentials "camille" "secret" "Réceptionniste")
       (Accounts.rows
          (snd (Accounts.post_user sample_hash (new_receptionist "camille" "secret")
                  Accounts.empty))))
  = 200.
Proof.
  assert (H := created_user_can_log_in sample_hash sample_compare
                 (new_receptionist "camille" "secret") Accounts.empty
                 "Camille Roy" "camille" "secret" "Réceptionniste"
                 eq_refl eq_refl eq_refl eq_refl).
  destruct H as (row & _ & _ & _ & L); try discriminate; [reflexivity..|].
  unfold credentials. rewrite L. reflexivity.
Defined.

(** X13: usernames are unique as written, but login compares them without
    the case of ASCII letters.  When an earlier row has the role of a new
    user and its username up to case, the new user is still created (201),
    under another username than the earlier row, and every login with the
    new username and that role, whatever the password, is answered as it
    was before the creation: from the earlier row, never with the new
    user. *)
Theorem case_variant_username_is_shadowed :
  forall (bcrypt_hash : string -> string) (bcrypt_compare : string -> string -> bool)
         (b : Accounts.new_user_body) (st : Accounts.store)
         (name username password role : string) (earlier : Users.user),
    Accounts.new_name b = Some name -> Accounts.new_username b = Some username ->
    Accounts.new_password b = Some password -> Accounts.new_role b = Some role ->
    name <> "" -> username <> "" -> password <> "" -> role <> "" ->
    Accounts.username_taken username st = false ->
    Accounts.find_account username role (Accounts.rows st) = Some earlier ->
    let out := Accounts.post_user bcrypt_hash b st in
    (exists row,
       fst out = {| http_status := 201; http_body := Json row |}
       /\ Users.id earlier < Users.listed_id row)
    /\ Users.username earlier <> username
    /\ forall attempt : option string,
         Accounts.login bcrypt_compare
           {| Accounts.login_username := Some username;
              Accounts.login_password := attempt;
              Accounts.login_role := Some role |}
           (Accounts.rows (snd out))
         = Accounts.login bcrypt_compare
             {| Accounts.login_username := Some username;
                Accounts.login_password := attempt;
                Accounts.login_role := Some role |}
             (Accounts.rows st).
Proof.
  intros bcrypt_hash bcrypt_compare b st name username password role earlier
         Hn Hu Hp Hr Nn Nu Np Nr Free Found out. subst out.
  rewrite (post_user_created bcrypt_hash b st name username password role
             Hn Hu Hp Hr Nn Nu Np Nr Free).
  destruct (find_account_found username role (Accounts.rows st) earlier Found)
    as (I & _ & _).
  split; [|split].
  - eexists. split; [reflexivity|]. cbn. apply next_rowid_above, I.
  - intros E. unfold Accounts.username_taken in Free.
    assert (T : existsb (fun u => String.eqb (Users.username u) username)
                  (Accounts.rows st) = true).
    { apply existsb_exists. exists earlier. split; [exact I|]. apply String.eqb_eq, E. }
    congruence.
  - intros attempt. cbn [snd Accounts.insert Accounts.rows].
    unfold Accounts.login. cbn [Accounts.login_username Accounts.login_password
                                Accounts.login_role].
    rewrite find_account_app, Found. reflexivity.
Qed.

Lemma case_variant_username_is_shadowed_witness :
  let st := snd (Accounts.post_user sample_hash (new_receptionist "Camille" "first")
                   Accounts.empty) in
  let st' := snd (Accounts.post_user sample_hash (new_receptionist "camille" "second") st) in
  List.length (Accounts.rows st') = 2%nat
  /\ Accounts.login sample_compare (credentials "camille" "second" "Réceptionniste")
       (Accounts.rows st')
     = reply 401 "Invalid credentials or role.".
Proof.
  cbv zeta. split; [reflexivity|].
  assert (H := case_variant_username_is_shadowed sample_hash sample_compare
                 (new_receptionist "camille" "second")
                 (snd (Accounts.post_user sample_hash (new_receptionist "Camille" "first")
                         Accounts.empty))
                 "Camille Roy" "camille" "second" "Réceptionniste"
                 {| Users.id := 1; Users.username := "Camille"; Users.name := "Camille Roy";
                    Users.role := "Réceptionniste"; Users.status := "Active";
                    Users.password := sample_hash "first"; Users.clientId := None |}
                 eq_refl eq_refl eq_refl eq_refl).
  destruct H as (_ & _ & Same); try discriminate; [reflexivity..|].
  unfold credentials. rewrite (Same (Some "second")). reflexivity.
Defined.

(** ** The first administrator *)

Lemma no_admin_count (users : list Users.user) :
  (Z.of_nat (List.length (filter (fun u => String.eqb (Users.role u) "Admin") users)) =? 0)
  = negb (existsb (fun u => String.eqb (Users.role u) "Admin") users).
Proof.
  induction users as [|u users IH]; cbn; [reflexivity|].
  destruct (String.eqb (Users.role u) "Admin"); cbn [negb orb]; [|exact IH].
  cbn [List.length]. apply Z.eqb_neq. lia.
Qed.

Lemma has_admin_app (users more : list Users.user) :
  existsb (fun u => String.eqb (Users.role u) "Admin") (users ++ more)
  = existsb (fun u => String.eqb (Users.role u) "Admin") users
    || existsb (fun u => String.eqb (Users.role u) "Admin") more.
Proof. apply existsb_app. Qed.

(** X14: [initializeDatabase] fails exactly when no row has the role Admin
    and the username admin is taken.  When it succeeds the table has an
    Admin, it is the table it was if it had one and otherwise the table
    with one more row, and running it again changes nothing. *)
Theorem initializeDatabase_ensures_an_admin :
  forall (bcrypt_hash : string -> string) (st : Accounts.store),
    let has_admin (s : Accounts.store) :=
      existsb (fun u => String.eqb (Users.role u) "Admin") (Accounts.rows s) in
    (Accounts.initializeDatabase bcrypt_hash st = None
     <-> has_admin st = false /\ Accounts.username_taken "admin" st = true)
    /\ forall st',
         Accounts.initializeDatabase bcrypt_hash st = Some st' ->
         has_admin st' = true
         /\ (has_admin st = true -> st' = st)
         /\ (has_admin st = false ->
             st' = Accounts.insert (Accounts.first_admin bcrypt_hash st) st)
         /\ forall again : string -> string,
              Accounts.initializeDatabase again st' = Some st'.
Proof.
  intros bcrypt_hash st has_admin. subst has_admin. cbn beta.
  unfold Accounts.initializeDatabase. rewrite no_admin_count.
  destruct (existsb (fun u => String.eqb (Users.role u) "Admin") (Accounts.rows st))
    eqn:A; cbn [negb].
  - split.
    + split; [discriminate|]. intros [H _]. discriminate H.
    + intros st' E. injection E as <-. rewrite A.
      repeat split; try discriminate.
      intros again. rewrite no_admin_count, A. reflexivity.
  - destruct (Accounts.username_taken "admin" st) eqn:T.
    + split; [split; [intros _; split; reflexivity|reflexivity]|]. discriminate.
    + split; [split; [discriminate|intros [_ H]; discriminate H]|].
      intros st' E. injection E as <-.
      assert (A' : existsb (fun u => String.eqb (Users.role u) "Admin")
                     (Accounts.rows (Accounts.insert
                                       (Accounts.first_admin bcrypt_hash st) st)) = true).
      { cbn [Accounts.insert Accounts.rows]. rewrite has_admin_app. cbn.
        apply orb_true_r. }
      repeat split; try assumption; try discriminate.
      intros again. rewrite no_admin_count, A'. reflexivity.
Qed.

(** X15: the administrator that [initializeDatabase] creates logs in with
    the password [password].  On a table without an Admin and without the
    username admin, and with a [bcrypt.compare] that accepts a password
    against the hash made of it, a login as admin, password, Admin on the
    initialised table is answered 200 with that administrator, who is
    Active. *)
Theorem first_admin_logs_in_with_default_password :
  forall (bcrypt_hash : string -> string) (bcrypt_compare : string -> string -> bool)
         (st : Accounts.store),
    existsb (fun u => String.eqb (Users.role u) "Admin") (Accounts.rows st) = false ->
    Accounts.username_taken "admin" st = false ->
    bcrypt_compare "password" (bcrypt_hash "password") = true ->
    exists st',
      Accounts.initializeDatabase bcrypt_hash st = Some st'
      /\ Accounts.login bcrypt_compare
           {| Accounts.login_username := Some "admin";
              Accounts.login_password := Some "password";
              Accounts.login_role := Some "Admin" |}
           (Accounts.rows st')
         = {| http_status := 200;
              http_body := Json (Users.listed (Accounts.first_admin bcrypt_hash st)) |}.
Proof.
  intros bcrypt_hash bcrypt_compare st NoAdmin Free Match.
  exists (Accounts.insert (Accounts.first_admin bcrypt_hash st) st). split.
  - unfold Accounts.initializeDatabase. rewrite no_admin_count, NoAdmin, Free.
    reflexivity.
  - rewrite (login_with_fields bcrypt_compare
               {| Accounts.login_username := Some "admin";
                  Accounts.login_password := Some "password";
                  Accounts.login_role := Some "Admin" |}
               _ "admin" "password" "Admin" eq_refl eq_refl eq_refl
               eq_refl eq_refl eq_refl).
    cbn [Accounts.insert Accounts.rows]. rewrite find_account_app.
    assert (F : Accounts.find_account "admin" "Admin" (Accounts.rows st) = None).
    { unfold Accounts.find_account.
      destruct (find _ (Accounts.rows st)) as [u|] eqn:F; [|reflexivity].
      apply find_some in F. destruct F as [I M].
      apply andb_true_iff in M. destruct M as [_ M].
      assert (T : existsb (fun u => String.eqb (Users.role u) "Admin")
                    (Accounts.rows st) = true).
      { apply existsb_exists. exists u. split; assumption. }
      congruence. }
    rewrite F. unfold Accounts.find_account. cbn [find].
    rewrite !String.eqb_refl. cbn [andb Accounts.first_admin Users.password Users.status].
    rewrite Match. reflexivity.
Qed.

Lemma first_admin_logs_in_with_default_password_witness :
  exists st',
    Accounts.initializeDatabase sample_hash Accounts.empty = Some st'
    /\ http_status
         (Accounts.login sample_compare (credentials "admin" "password" "Admin")
            (Accounts.rows st'))
       = 200.
Proof.
  assert (H := first_admin_logs_in_with_default_password sample_hash sample_compare
                 Accounts.empty eq_refl eq_refl eq_refl).
  destruct H as (st' & I & L).
  exists st'. split; [exact I|]. unfold credentials. rewrite L. reflexivity.
Defined.

(** ** Ids and usernames along the requests *)

Lemma NoDup_snoc {A : Type} (l : list A) (x : A) :
  NoDup l -> ~ In x l -> NoDup (l ++ [x]).
Proof.
  intros D NotIn. induction D as [|y l NotIn' D IH]; cbn.
  - constructor; [intros []|constructor].
  - constructor.
    + intros I. apply in_app_or in I. destruct I as [I|[E|[]]]; [contradiction|].
      apply NotIn. left. symmetry. exact E.
    + apply IH. intros I. apply NotIn. right. exact I.
Qed.

Lemma NoDup_map_filter {A B : Type} (f : A -> B) (sel : A -> bool) (l : list A) :
  NoDup (map f l) -> NoDup (map f (filter sel l)).
Proof.
  induction l as [|x l IH]; cbn; intros D; [constructor|].
  inversion D as [|? ? NotIn D']; subst.
  destruct (sel x); cbn; [|apply IH, D'].
  constructor; [|apply IH, D'].
  intros I. apply NotIn. apply in_map_iff in I. destruct I as (y & E & I).
  apply filter_In in I. rewrite <- E. apply in_map, I.
Qed.

Lemma NoDup_map_injective_on {A B : Type} (f : A -> B) (l : list A) :
  NoDup (map f l) ->
  forall x y, In x l -> In y l -> f x = f y -> x = y.
Proof.
  induction l as [|z l IH]; cbn; intros D x y Ix Iy E; [contradiction|].
  inversion D as [|? ? NotIn D']; subst.
  destruct Ix as [<-|Ix], Iy as [<-|Iy].
  - reflexivity.
  - exfalso. apply NotIn. rewrite E. apply in_map, Iy.
  - exfalso. apply NotIn. rewrite <- E. apply in_map, Ix.
  - apply (IH D' x y Ix Iy E).
Qed.

Lemma NoDup_map_of_injective_on {A B : Type} (f : A -> B) (l : list A) :
  NoDup l ->
  (forall x y, In x l -> In y l -> f x = f y -> x = y) ->
  NoDup (map f l).
Proof.
  induction 1 as [|x l NotIn D IH]; cbn; intros Inj; constructor.
  - intros I. apply in_map_iff in I. destruct I as (y & E & I).
    assert (y = x) by (apply Inj; [right; exact I|left; reflexivity|exact E]).
    subst y. contradiction.
  - apply IH. intros a b Ia Ib. apply Inj; right; assumption.
Qed.

Lemma assign_id (u : Users.user) (a : Users.assignment) :
  Users.id (Users.assign u a) = Users.id u.
Proof. destruct a; reflexivity. Qed.

Lemma assign_all_id (updates : list Users.assignment) (u : Users.user) :
  Users.id (fold_left Users.assign updates u) = Users.id u.
Proof.
  revert u. induction updates as [|a updates IH]; intros u; cbn; [reflexivity|].
  rewrite IH. apply assign_id.
Qed.

(** The table after a PUT: the table it was, or the table with the rows of
    the id updated, and then without a clash of usernames. *)
Lemma put_user_stored (bcrypt_hash : string -> string) (userId : Z)
    (b : Users.user_body) (users : list Users.user) :
  let updated (u : Users.user) :=
    if Users.id u =? userId
    then fold_left Users.assign (Users.put_updates bcrypt_hash b) u else u in
  snd (Users.put_user bcrypt_hash userId b users) = users
  \/ (Users.violates_unique (Users.put_updates bcrypt_hash b) userId users = false
      /\ snd (Users.put_user bcrypt_hash userId b users) = map updated users).
Proof.
  intros updated. unfold Users.put_user.
  destruct (Z.of_nat (List.length (Users.put_updates bcrypt_hash b)) =? 0);
    [left; reflexivity|].
  destruct (Users.violates_unique _ _ _) eqn:V; [left; reflexivity|].
  right. split; [reflexivity|]. unfold Users.update_user.
  destruct (Z.of_nat (List.length (filter _ users)) =? 0); [reflexivity|].
  destruct (find _ _); reflexivity.
Qed.

Lemma put_user_keeps_distinct (bcrypt_hash : string -> string) (userId : Z)
    (b : Users.user_body) (users : list Users.user) :
  NoDup (map Users.id users) -> NoDup (map Users.username users) ->
  map Users.id (snd (Users.put_user bcrypt_hash userId b users)) = map Users.id users
  /\ NoDup (map Users.username (snd (Users.put_user bcrypt_hash userId b users))).
Proof.
  intros Di Du.
  destruct (put_user_stored bcrypt_hash userId b users) as [E|[V E]]; rewrite E.
  { split; [reflexivity|exact Du]. }
  set (updates := Users.put_updates bcrypt_hash b) in *.
  set (updated := fun u : Users.user =>
                    if Users.id u =? userId then fold_left Users.assign updates u else u).
  assert (Id : forall u, Users.id (updated u) = Users.id u).
  { intros u. unfold updated. destruct (Users.id u =? userId); [apply assign_all_id|reflexivity]. }
  split.
  - rewrite map_map. apply map_ext. exact Id.
  - rewrite map_map. apply NoDup_map_of_injective_on.
    + apply (NoDup_map_inv Users.id), Di.
    + intros x y Ix Iy E'.
      destruct (Z.eqb_spec (Users.id x) userId) as [Ex|Nx];
        destruct (Z.eqb_spec (Users.id y) userId) as [Ey|Ny].
      * apply (NoDup_map_injective_on Users.id users Di x y Ix Iy). congruence.
      * exfalso. unfold updated in E'.
        rewrite (proj2 (Z.eqb_eq _ _) Ex), (proj2 (Z.eqb_neq _ _) Ny) in E'.
        assert (T : Users.violates_unique updates userId users = true).
        { unfold Users.violates_unique. apply existsb_exists. exists x.
          split; [exact Ix|]. rewrite (proj2 (Z.eqb_eq _ _) Ex). cbn [andb].
          apply existsb_exists. exists y. split; [exact Iy|].
          rewrite (proj2 (Z.eqb_neq _ _) Ny). cbn [negb andb].
          apply String.eqb_eq. symmetry. exact E'. }
        congruence.
      * exfalso. unfold updated in E'.
        rewrite (proj2 (Z.eqb_eq _ _) Ey), (proj2 (Z.eqb_neq _ _) Nx) in E'.
        assert (T : Users.violates_unique updates userId users = true).
        { unfold Users.violates_unique. apply existsb_exists. exists y.
          split; [exact Iy|]. rewrite (proj2 (Z.eqb_eq _ _) Ey). cbn [andb].
          apply existsb_exists. exists x. split; [exact Ix|].
          rewrite (proj2 (Z.eqb_neq _ _) Nx). cbn [negb andb].
          apply String.eqb_eq. exact E'. }
        congruence.
      * unfold updated in E'.
        rewrite (proj2 (Z.eqb_neq _ _) Nx), (proj2 (Z.eqb_neq _ _) Ny) in E'.
        apply (NoDup_map_injective_on Users.username users Du x y Ix Iy E').
Qed.

Lemma delete_user_stored (userId : Z) (users : list Users.user) :
  snd (Users.delete_user userId users) = users
  \/ snd (Users.delete_user userId users)
     = filter (fun u => negb (Users.id u =? userId)) users.
Proof.
  unfold Users.delete_user. destruct (find _ users) as [user|]; [|left; reflexivity].
  destruct (String.eqb (Users.role user) "Admin"); [left|right]; reflexivity.
Qed.

Lemma post_user_stored (bcrypt_hash : string -> string) (b : Accounts.new_user_body)
    (st : Accounts.store) :
  snd (Accounts.post_user bcrypt_hash b st) = st
  \/ exists row,
       snd (Accounts.post_user bcrypt_hash b st) = Accounts.insert row st
       /\ Users.id row = Accounts.next_rowid st
       /\ Accounts.username_taken (Users.username row) st = false.
Proof.
  unfold Accounts.post_user.
  destruct (negb _ || negb _ || negb _ || negb _); [left; reflexivity|].
  destruct (Accounts.new_name b) as [name|]; [|left; reflexivity].
  destruct (Accounts.new_username b) as [username|]; [|left; reflexivity].
  destruct (Accounts.new_password b) as [password|]; [|left; reflexivity].
  destruct (Accounts.new_role b) as [role|]; [|left; reflexivity].
  destruct (Accounts.username_taken username st) eqn:T; [left; reflexivity|].
  right. eexists. split; [reflexivity|]. split; [reflexivity|exact T].
Qed.

(** The three facts that hold of the table after every request. *)
Lemma handle_keeps_distinct (st : Accounts.store) (r : Accounts.request) :
  NoDup (map Users.id (Accounts.rows st)) ->
  NoDup (map Users.username (Accounts.rows st)) ->
  Forall (fun u => 0 < Users.id u <= Accounts.sequence st) (Accounts.rows st) ->
  let st' := Accounts.handle st r in
  NoDup (map Users.id (Accounts.rows st'))
  /\ NoDup (map Users.username (Accounts.rows st'))
  /\ Forall (fun u => 0 < Users.id u <= Accounts.sequence st') (Accounts.rows st')
  /\ Accounts.sequence st <= Accounts.sequence st'.
Proof.
  intros Di Du Seq st'. subst st'. destruct r as [h b|h userId b|userId]; cbn [Accounts.handle].
  - destruct (post_user_stored h b st) as [E|(row & E & Id & Free)]; rewrite E.
    { repeat split; try assumption. lia. }
    cbn [Accounts.insert Accounts.rows Accounts.sequence]. rewrite !map_app. cbn [map].
    pose proof (next_rowid_above_sequence st) as Above.
    repeat split.
    + apply NoDup_snoc; [exact Di|]. intros I. apply in_map_iff in I.
      destruct I as (u & E' & I). apply next_rowid_above in I. lia.
    + apply NoDup_snoc; [exact Du|]. intros I. apply in_map_iff in I.
      destruct I as (u & E' & I). unfold Accounts.username_taken in Free.
      assert (T : existsb (fun v => String.eqb (Users.username v) (Users.username row))
                    (Accounts.rows st) = true).
      { apply existsb_exists. exists u. split; [exact I|]. apply String.eqb_eq, E'. }
      congruence.
    + apply Forall_app. split.
      * eapply Forall_impl; [|exact Seq]. cbn. intros u H. lia.
      * constructor; [|constructor].
        pose proof (next_rowid_positive st). lia.
    + lia.
  - cbn [Accounts.rows Accounts.sequence].
    destruct (put_user_keeps_distinct h userId b (Accounts.rows st) Di Du) as [Ids Du'].
    repeat split; try assumption; try lia.
    + rewrite Ids. exact Di.
    + apply Forall_forall. intros u I.
      assert (I' : In (Users.id u) (map Users.id (Accounts.rows st))).
      { rewrite <- Ids. apply in_map, I. }
      apply in_map_iff in I'. destruct I' as (v & E & I').
      rewrite Forall_forall in Seq. rewrite <- E. apply Seq, I'.
  - cbn [Accounts.rows Accounts.sequence].
    destruct (delete_user_stored userId (Accounts.rows st)) as [E|E]; rewrite E.
    { repeat split; try assumption. lia. }
    repeat split; try lia.
    + apply NoDup_map_filter, Di.
    + apply NoDup_map_filter, Du.
    + apply Forall_forall. intros u I. apply filter_In in I.
      rewrite Forall_forall in Seq. apply Seq, I.
Qed.

Lemma serve_keeps_distinct (requests : list Accounts.request) (st : Accounts.store) :
  NoDup (map Users.id (Accounts.rows st)) ->
  NoDup (map Users.username (Accounts.rows st)) ->
  Forall (fun u => 0 < Users.id u <= Accounts.sequence st) (Accounts.rows st) ->
  let st' := Accounts.serve requests st in
  NoDup (map Users.id (Accounts.rows st'))
  /\ NoDup (map Users.username (Accounts.rows st'))
  /\ Forall (fun u => 0 < Users.id u <= Accounts.sequence st') (Accounts.rows st')
  /\ Accounts.sequence st <= Accounts.sequence st'.
Proof.
  revert st. induction requests as [|r requests IH]; intros st Di Du Seq; cbn.
  - repeat split; try assumption. lia.
  - destruct (handle_keeps_distinct st r Di Du Seq) as (Di' & Du' & Seq' & Le).
    destruct (IH (Accounts.handle st r) Di' Du' Seq') as (A & B & C & Le').
    unfold Accounts.serve in *. repeat split; try assumption. lia.
Qed.

(** X16: whatever creations, updates and deletions of users are served
    from the empty table, no two rows of the table share an id and no two
    share a username, and every id is above 0 and at most the counter of
    the table. *)
Theorem accounts_stay_distinct :
  forall requests : list Accounts.request,
    let st := Accounts.serve requests Accounts.empty in
    NoDup (map Users.id (Accounts.rows st))
    /\ NoDup (map Users.username (Accounts.rows st))
    /\ Forall (fun u => 0 < Users.id u <= Accounts.sequence st) (Accounts.rows st).
Proof.
  intros requests st. subst st.
  destruct (serve_keeps_distinct requests Accounts.empty
              (NoDup_nil _) (NoDup_nil _) (Forall_nil _)) as (A & B & C & _).
  repeat split; assumption.
Qed.

(** X17: the id of a user is never given again, also after the user is
    deleted: a user created after any further requests gets an id above
    the id of every user the table held before them. *)
Theorem user_ids_are_not_reused :
  forall (before after : list Accounts.request) (bcrypt_hash : string -> string)
         (b : Accounts.new_user_body) (u : Users.user) (row : Users.listed_user),
    In u (Accounts.rows (Accounts.serve before Accounts.empty)) ->
    http_body (fst (Accounts.post_user bcrypt_hash b
                      (Accounts.serve after (Accounts.serve before Accounts.empty))))
    = Json row ->
    Users.id u < Users.listed_id row.
Proof.
  intros before after bcrypt_hash b u row I Created.
  destruct (serve_keeps_distinct before Accounts.empty
              (NoDup_nil _) (NoDup_nil _) (Forall_nil _)) as (Di & Du & Seq & _).
  destruct (serve_keeps_distinct after (Accounts.serve before Accounts.empty)
              Di Du Seq) as (_ & _ & _ & Le).
  rewrite Forall_forall in Seq. specialize (Seq u I).
  set (st := Accounts.serve after (Accounts.serve before Accounts.empty)) in *.
  pose proof (next_rowid_above_sequence st) as Above.
  unfold Accounts.post_user in Created.
  destruct (negb _ || negb _ || negb _ || negb _); [discriminate Created|].
  destruct (Accounts.new_name b); [|discriminate Created].
  destruct (Accounts.new_username b); [|discriminate Created].
  destruct (Accounts.new_password b); [|discriminate Created].
  destruct (Accounts.new_role b); [|discriminate Created].
  destruct (Accounts.username_taken _ st); [discriminate Created|].
  cbn in Created. injection Created as <-. cbn. lia.
Qed.

Lemma user_ids_are_not_reused_witness :
  Accounts.rows
    (Accounts.serve [Accounts.DeleteUser 1]
       (Accounts.serve [Accounts.PostUser sample_hash (new_receptionist "camille" "secret")]
          Accounts.empty))
  = []
  /\ 1 < Users.listed_id
          {| Users.listed_id := 2; Users.listed_username := "denis";
             Users.listed_name := "Camille Roy"; Users.listed_role := "Réceptionniste";
             Users.listed_status := "Active"; Users.listed_clientId := None |}.
Proof.
  split; [reflexivity|].
  apply (user_ids_are_not_reused
           [Accounts.PostUser sample_hash (new_receptionist "camille" "secret")]
           [Accounts.DeleteUser 1] sample_hash (new_receptionist "denis" "secret")
           {| Users.id := 1; Users.username := "camille"; Users.name := "Camille Roy";
              Users.role := "Réceptionniste"; Users.status := "Active";
              Users.password := sample_hash "secret"; Users.clientId := None |}).
  - left. reflexivity.
  - reflexivity.
Defined.

(** ** PUT /api/users/:id *)

Lemma updated_columns (bcrypt_hash : string -> string) (b : Users.user_body)
    (u : Users.user) :
  let u' := fold_left Users.assign (Users.put_updates bcrypt_hash b) u in
  Users.id u' = Users.id u
  /\ Users.name u' = field_or_stored (Users.put_name b) (Users.name u)
  /\ Users.username u' = field_or_stored (Users.put_username b) (Users.username u)
  /\ Users.role u' = field_or_stored (Users.put_role b) (Users.role u)
  /\ Users.status u' = field_or_stored (Users.put_status b) (Users.status u)
  /\ Users.password u'
     = match Users.put_password b with
       | Some v => if truthy_string v then bcrypt_hash v else Users.password u
       | None => Users.password u
       end
  /\ Users.clientId u' = Users.clientId_param b.
Proof.
  unfold Users.put_updates, Users.push_if, field_or_stored.
  destruct (Users.put_name b) as [n|]; [destruct (truthy_string n)|];
    (destruct (Users.put_username b) as [un|]; [destruct (truthy_string un)|]);
    (destruct (Users.put_role b) as [r|]; [destruct (truthy_string r)|]);
    (destruct (Users.put_status b) as [s|]; [destruct (truthy_string s)|]);
    (destruct (Users.put_password b) as [p|]; [destruct (truthy_string p)|]);
    cbn; repeat split.
Qed.

(** X18: what a PUT that is answered 200 stores.  The rows of other ids
    are the rows they were.  In a row of the id, each of name, username,
    role and status is the field of the body when the body has it and it
    is not empty, and is unchanged otherwise; the password is the hash of
    the field under the same condition; and [clientId] is the one of the
    body when the role of the body is Agriculteur, and NULL in every other
    case. *)
Theorem put_user_stores :
  forall (bcrypt_hash : string -> string) (userId : Z) (b : Users.user_body)
         (users : list Users.user),
    http_status (fst (Users.put_user bcrypt_hash userId b users)) = 200 ->
    Forall2 (fun u u' : Users.user =>
               Users.id u' = Users.id u
               /\ (Users.id u <> userId -> u' = u)
               /\ (Users.id u = userId ->
                   Users.name u' = field_or_stored (Users.put_name b) (Users.name u)
                   /\ Users.username u'
                      = field_or_stored (Users.put_username b) (Users.username u)
                   /\ Users.role u' = field_or_stored (Users.put_role b) (Users.role u)
                   /\ Users.status u'
                      = field_or_stored (Users.put_status b) (Users.status u)
                   /\ Users.password u'
                      = match Users.put_password b with
                        | Some v =>
                            if truthy_string v then bcrypt_hash v else Users.password u
                        | None => Users.password u
                        end
                   /\ Users.clientId u'
                      = match Users.put_role b with
                        | Some r =>
                            if String.eqb r "Agriculteur" then Users.put_clientId b
                            else None
                        | None => None
                        end))
      users (snd (Users.put_user bcrypt_hash userId b users)).
Proof.
  intros bcrypt_hash userId b users S.
  assert (E : snd (Users.put_user bcrypt_hash userId b users)
              = map (fun u => if Users.id u =? userId
                              then fold_left Users.assign
                                     (Users.put_updates bcrypt_hash b) u
                              else u) users).
  { revert S. unfold Users.put_user.
    destruct (Z.of_nat (List.length (Users.put_updates bcrypt_hash b)) =? 0);
      [discriminate|].
    destruct (Users.violates_unique _ _ _); [discriminate|].
    unfold Users.update_user.
    destruct (Z.of_nat (List.length (filter _ users)) =? 0); [discriminate|].
    destruct (find _ _); reflexivity. }
  rewrite E. clear E S.
  induction users as [|u users IH]; cbn [map]; constructor; [|exact IH].
  destruct (updated_columns bcrypt_hash b u) as (I & Nm & Un & Ro & St & Pw & Cl).
  destruct (Z.eqb_spec (Users.id u) userId) as [Eq|Ne].
  - split; [exact I|]. split; [intros D; contradiction|]. intros _.
    repeat split; assumption.
  - split; [reflexivity|]. split; [reflexivity|]. intros Eq. contradiction.
Qed.

Lemma put_user_stores_witness :
  http_status (fst (Users.put_user sample_hash 2 suspend_only sample_users)) = 200
  /\ Forall2 (fun u u' : Users.user => Users.id u' = Users.id u)
       sample_users (snd (Users.put_user sample_hash 2 suspend_only sample_users)).
Proof.
  split; [reflexivity|].
  eapply Forall2_impl; [|apply (put_user_stores sample_hash 2 suspend_only sample_users);
                          reflexivity].
  intros u u' (I & _). exact I.
Defined.

Lemma no_row_no_clash (updates : list Users.assignment) (userId : Z)
    (users : list Users.user) :
  (forall u, In u users -> Users.id u <> userId) ->
  Users.violates_unique updates userId users = false
  /\ filter (fun u => Users.id u =? userId) users = []
  /\ map (fun u => if Users.id u =? userId then fold_left Users.assign updates u else u)
       users = users.
Proof.
  intros No. repeat split.
  - unfold Users.violates_unique.
    destruct (existsb _ users) eqn:E; [|reflexivity].
    apply existsb_exists in E. destruct E as (u & I & M).
    apply andb_true_iff in M. destruct M as [M _]. apply Z.eqb_eq in M.
    exfalso. apply (No u I M).
  - induction users as [|u users IH]; [reflexivity|]. cbn.
    destruct (Z.eqb_spec (Users.id u) userId) as [E|_].
    + exfalso. apply (No u); [left; reflexivity|exact E].
    + apply IH. intros v I. apply No. right. exact I.
  - rewrite <- (map_id users) at 2. apply map_ext_in. intros u I.
    destruct (Z.eqb_spec (Users.id u) userId) as [E|_]; [|reflexivity].
    exfalso. apply (No u I E).
Qed.

(** X19: the two failures of a PUT leave the table as it is.  An id that
    no row has is answered 404.  A username, given and not empty, that a
    row of another id carries while a row has the id is answered 500, the
    failure of the UNIQUE constraint. *)
Theorem put_user_failures :
  forall (bcrypt_hash : string -> string) (userId : Z) (b : Users.user_body)
         (users : list Users.user),
    let out := Users.put_user bcrypt_hash userId b users in
    ((forall u, In u users -> Users.id u <> userId) ->
     out = (reply 404 "User not found.", users))
    /\ (forall (target other : Users.user) (username : string),
          In target users -> Users.id target = userId ->
          In other users -> Users.id other <> userId ->
          Users.put_username b = Some username -> username <> "" ->
          Users.username other = username ->
          out = (reply 500 "Database error", users)).
Proof.
  intros bcrypt_hash userId b users out. subst out.
  assert (Len : (Z.of_nat (List.length (Users.put_updates bcrypt_hash b)) =? 0) = false).
  { apply Z.eqb_neq. unfold Users.put_updates. rewrite !length_app. cbn. lia. }
  split.
  - intros No. unfold Users.put_user. rewrite Len.
    destruct (no_row_no_clash (Users.put_updates bcrypt_hash b) userId users No)
      as (V & F & M).
    rewrite V. unfold Users.update_user. rewrite F, M. reflexivity.
  - intros target other username It Et Io Eo Un Ne Same.
    unfold Users.put_user. rewrite Len.
    assert (V : Users.violates_unique (Users.put_updates bcrypt_hash b) userId users
                = true).
    { unfold Users.violates_unique. apply existsb_exists. exists target.
      split; [exact It|]. rewrite (proj2 (Z.eqb_eq _ _) Et). cbn [andb].
      apply existsb_exists. exists other. split; [exact Io|].
      rewrite (proj2 (Z.eqb_neq _ _) Eo). cbn [negb andb].
      apply String.eqb_eq.
      destruct (updated_columns bcrypt_hash b target) as (_ & _ & U & _).
      rewrite U, Un. cbn. apply String.eqb_neq in Ne. unfold truthy_string.
      rewrite Ne. cbn. exact Same. }
    rewrite V. reflexivity.
Qed.

Lemma put_user_failures_witness :
  Users.put_user sample_hash 9 suspend_only sample_users
  = (reply 404 "User not found.", sample_users).
Proof.
  apply (put_user_failures sample_hash 9 suspend_only sample_users).
  intros u [<-|[<-|[]]]; discriminate.
Defined.

(** ** PUT, DELETE and login together *)

(** X20: the 403 of DELETE does not keep an administrator in the table.
    In a table without two rows of one username, a PUT that names another
    role for the id of any user, an Admin included, is answered 200, and
    the DELETE of that id is then answered 204 and leaves no row of the
    id. *)
Theorem role_change_lifts_the_delete_guard :
  forall (bcrypt_hash : string -> string) (userId : Z) (role : string)
         (users : list Users.user) (target : Users.user),
    NoDup (map Users.username users) ->
    In target users -> Users.id target = userId ->
    role <> "" -> role <> "Admin" ->
    let changed := Users.put_user bcrypt_hash userId (role_only role) users in
    let deleted := Users.delete_user userId (snd changed) in
    http_status (fst changed) = 200
    /\ http_status (fst deleted) = 204
    /\ forall u, In u (snd deleted) -> Users.id u <> userId.
Proof.
  intros bcrypt_hash userId role users target Du It Et Ne NotAdmin changed deleted.
  set (updates := Users.put_updates bcrypt_hash (role_only role)).
  set (updated := fun u : Users.user =>
                    if Users.id u =? userId then fold_left Users.assign updates u else u).
  assert (V : Users.violates_unique updates userId users = false).
  { unfold Users.violates_unique.
    destruct (existsb _ users) eqn:E; [|reflexivity]. exfalso.
    apply existsb_exists in E. destruct E as (x & Ix & M).
    apply andb_true_iff in M. destruct M as [Ex M].
    apply existsb_exists in M. destruct M as (y & Iy & M).
    apply andb_true_iff in M. destruct M as [Ny M].
    apply Z.eqb_eq in Ex. apply negb_true_iff, Z.eqb_neq in Ny.
    apply String.eqb_eq in M.
    destruct (updated_columns bcrypt_hash (role_only role) x) as (_ & _ & U & _).
    fold updates in U. rewrite U in M. cbn in M.
    assert (y = x) by (apply (NoDup_map_injective_on Users.username users Du); assumption).
    subst y. contradiction. }
  assert (F : (Z.of_nat (List.length (filter (fun u => Users.id u =? userId) users)) =? 0)
              = false).
  { apply Z.eqb_neq.
    assert (I : In target (filter (fun u => Users.id u =? userId) users)).
    { apply filter_In. split; [exact It|]. apply Z.eqb_eq, Et. }
    destruct (filter _ users); [contradiction|]. cbn. lia. }
  assert (Found : exists x, find (fun u => Users.id u =? userId) (map updated users)
                            = Some (updated x) /\ Users.id x = userId).
  { clear - It Et. induction users as [|x users IH]; [contradiction|]. cbn [map find].
    assert (Ix : Users.id (updated x) = Users.id x).
    { unfold updated. destruct (Users.id x =? userId); [apply assign_all_id|reflexivity]. }
    rewrite Ix. destruct (Z.eqb_spec (Users.id x) userId) as [E|N].
    - exists x. split; [reflexivity|exact E].
    - destruct It as [<-|It]; [contradiction|]. apply IH, It. }
  destruct Found as (x & Found & Ex).
  assert (C : changed
              = ({| http_status := 200; http_body := Json (Users.listed (updated x)) |},
                 map updated users)).
  { subst changed. unfold Users.put_user. fold updates. cbn [List.length updates].
    replace (Z.of_nat (List.length updates) =? 0) with false
      by (symmetry; apply Z.eqb_neq; unfold updates, Users.put_updates;
          rewrite !length_app; cbn; lia).
    rewrite V. unfold Users.update_user. rewrite F. fold updated. rewrite Found.
    reflexivity. }
  assert (R : Users.role (updated x) = role).
  { unfold updated. rewrite (proj2 (Z.eqb_eq _ _) Ex).
    destruct (updated_columns bcrypt_hash (role_only role) x) as (_ & _ & _ & Ro & _).
    fold updates in Ro. rewrite Ro. cbn. apply String.eqb_neq in Ne.
    unfold truthy_string. rewrite Ne. reflexivity. }
  subst deleted. rewrite C. cbn [fst snd http_status].
  split; [reflexivity|].
  unfold Users.delete_user. rewrite Found, R.
  apply String.eqb_neq in NotAdmin. rewrite NotAdmin. cbn [fst snd http_status].
  split; [reflexivity|].
  intros u I. apply filter_In in I. destruct I as [_ I].
  apply negb_true_iff, Z.eqb_neq in I. exact I.
Qed.

Lemma role_change_lifts_the_delete_guard_witness :
  Users.delete_user 1 sample_users
  = (reply 403 "Cannot delete an admin user.", sample_users)
  /\ http_status
       (fst (Users.delete_user 1
               (snd (Users.put_user sample_hash 1 (role_only "Agriculteur") sample_users))))
     = 204.
Proof.
  split; [reflexivity|].
  assert (H := role_change_lifts_the_delete_guard sample_hash 1 "Agriculteur" sample_users
                 {| Users.id := 1; Users.username := "admin"; Users.name := "Alice Durand";
                    Users.role := "Admin"; Users.status := "Active";
                    Users.password := "$2b$10$admin"; Users.clientId := None |}).
  apply H.
  - repeat constructor; cbn; intuition discriminate.
  - left. reflexivity.
  - reflexivity.
  - discriminate.
  - discriminate.
Defined.

Lemma put_user_ok_stored (bcrypt_hash : string -> string) (userId : Z)
    (b : Users.user_body) (users : list Users.user) :
  http_status (fst (Users.put_user bcrypt_hash userId b users)) = 200 ->
  snd (Users.put_user bcrypt_hash userId b users)
  = map (fun u => if Users.id u =? userId
                  then fold_left Users.assign (Users.put_updates bcrypt_hash b) u
                  else u) users.
Proof.
  unfold Users.put_user.
  destruct (Z.of_nat (List.length (Users.put_updates bcrypt_hash b)) =? 0);
    [discriminate|].
  destruct (Users.violates_unique _ _ _); [discriminate|].
  unfold Users.update_user.
  destruct (Z.of_nat (List.length (filter _ users)) =? 0); [discriminate|].
  destruct (find _ _); reflexivity.
Qed.

(** X21: a user that the suspend button has suspended cannot log in.
    After the request [handleSuspendToggle] sends for a user the browser
    holds as Active is answered 200, no login, whatever its fields, is
    answered 200 with a user of that id. *)
Theorem suspended_user_cannot_log_in :
  forall (bcrypt_hash : string -> string) (bcrypt_compare : string -> string -> bool)
         (userId : Z) (cached : Users.listed_user) (users : list Users.user),
    Users.listed_status cached = "Active" ->
    http_status (fst (Users.put_user bcrypt_hash userId (suspend_toggle_body cached) users))
    = 200 ->
    forall (b : Accounts.login_body) (row : Users.listed_user),
      Accounts.login bcrypt_compare b
        (snd (Users.put_user bcrypt_hash userId (suspend_toggle_body cached) users))
      = {| http_status := 200; http_body := Json row |} ->
      Users.listed_id row <> userId.
Proof.
  intros bcrypt_hash bcrypt_compare userId cached users Active Ok b row L.
  rewrite (put_user_ok_stored _ _ _ _ Ok) in L.
  assert (S : http_status (Accounts.login bcrypt_compare b
                (map (fun u => if Users.id u =? userId
                               then fold_left Users.assign
                                      (Users.put_updates bcrypt_hash
                                         (suspend_toggle_body cached)) u
                               else u) users)) = 200)
    by (rewrite L; reflexivity).
  apply login_success in S.
  destruct S as (user & username & password & role & _ & _ & _ & F & _ & NotSuspended & L').
  rewrite L' in L. injection L as <-. cbn [Users.listed Users.listed_id].
  intros E. apply NotSuspended.
  apply find_account_found in F. destruct F as (I & _).
  apply in_map_iff in I. destruct I as (x & Ex & _).
  destruct (updated_columns bcrypt_hash (suspend_toggle_body cached) x)
    as (Ix & _ & _ & _ & St & _).
  destruct (Z.eqb_spec (Users.id x) userId) as [Eq|Ne].
  - rewrite <- Ex, St. unfold suspend_toggle_body. cbn. rewrite Active. reflexivity.
  - subst user. contradiction.
Qed.

Lemma suspended_user_cannot_log_in_witness :
  http_status
    (Accounts.login sample_compare (credentials "bruno" "bruno" "Agriculteur") sample_users)
  = 200
  /\ Accounts.login sample_compare (credentials "bruno" "bruno" "Agriculteur")
       (snd (Users.put_user sample_hash 2 suspend_only sample_users))
     <> {| http_status := 200;
           http_body := Json {| Users.listed_id := 2; Users.listed_username := "bruno";
                                Users.listed_name := "Bruno Petit";
                                Users.listed_role := "Agriculteur";
                                Users.listed_status := "Suspended";
                                Users.listed_clientId := None |} |}.
Proof.
  split; [reflexivity|]. intros L.
  apply (suspended_user_cannot_log_in sample_hash sample_compare 2
           {| Users.listed_id := 2; Users.listed_username := "bruno";
              Users.listed_name := "Bruno Petit"; Users.listed_role := "Agriculteur";
              Users.listed_status := "Active"; Users.listed_clientId := Some 5 |}
           sample_users eq_refl eq_refl
           (credentials "bruno" "bruno" "Agriculteur") _ L).
  reflexivity.
Defined.

(** ** Clients *)

Lemma clients_run_preserves (P : list Clients.client -> Prop) :
  (forall today b clients, P clients -> P (snd (Clients.post_client today b clients))) ->
  forall (requests : list (string * Clients.client_body)) (clients : list Clients.client),
    P clients -> P (Clients.run requests clients).
Proof.
  intros Step requests.
  induction requests as [|[today b] requests IH]; intros clients H; [exact H|].
  cbn. apply IH, Step, H.
Qed.

Lemma post_client_stored (today : string) (b : Clients.client_body)
    (clients : list Clients.client) :
  Clients.post_client today b clients
  = (reply 400 "Missing required client fields.", clients)
  \/ exists name type phone address email,
       Clients.new_name b = Some name /\ Clients.new_type b = Some type
       /\ Clients.new_phone b = Some phone /\ Clients.new_address b = Some address
       /\ Clients.new_email b = Some email
       /\ name <> "" /\ type <> "" /\ phone <> "" /\ address <> "" /\ email <> ""
       /\ let row :=
            {| Clients.id := Clients.lastID clients; Clients.name := name;
               Clients.joinDate := today; Clients.type := type;
               Clients.phone := phone; Clients.address := address;
               Clients.email := email; Clients.comment := Clients.new_comment b |} in
          Clients.post_client today b clients
          = ({| http_status := 201; http_body := Json row |}, clients ++ [row]).
Proof.
  unfold Clients.post_client.
  destruct (Clients.new_name b) as [name|]; [|left; reflexivity].
  destruct (Clients.new_type b) as [type|];
    [|left; cbn; rewrite ?orb_true_r; reflexivity].
  destruct (Clients.new_phone b) as [phone|];
    [|left; cbn; rewrite ?orb_true_r; reflexivity].
  destruct (Clients.new_address b) as [address|];
    [|left; cbn; rewrite ?orb_true_r; reflexivity].
  destruct (Clients.new_email b) as [email|];
    [|left; cbn; rewrite ?orb_true_r; reflexivity].
  cbn [truthy_opt]. unfold truthy_string.
  destruct (String.eqb_spec name ""); [left; reflexivity|].
  destruct (String.eqb_spec type ""); [left; reflexivity|].
  destruct (String.eqb_spec phone ""); [left; reflexivity|].
  destruct (String.eqb_spec address ""); [left; reflexivity|].
  destruct (String.eqb_spec email ""); [left; reflexivity|].
  right. exists name, type, phone, address, email. cbn. repeat split; assumption.
Qed.

Lemma client_name_found (clients : list Clients.client) (c : Clients.client) :
  NoDup (map Clients.id clients) -> In c clients ->
  Clients.getClientNameById (Clients.id c) clients = Clients.name c.
Proof.
  unfold Clients.getClientNameById.
  induction clients as [|x clients IH]; cbn; intros D I; [contradiction|].
  inversion D as [|? ? NotIn D']; subst.
  destruct I as [<-|I].
  - rewrite Z.eqb_refl. reflexivity.
  - destruct (Z.eqb_spec (Clients.id x) (Clients.id c)) as [E|_]; [|apply IH; assumption].
    exfalso. apply NotIn. rewrite E. apply in_map, I.
Qed.

(** X22: the clients created by any list of requests from the empty table
    carry the ids 1, 2, ..., n in the order of their creation, each has
    the five required fields not empty, and the browser's
    [getClientNameById] finds the name of each of them by its id; an id
    that no client has gives "Client inconnu". *)
Theorem clients_are_found_by_id :
  forall requests : list (string * Clients.client_body),
    let clients := Clients.run requests [] in
    map Clients.id clients = map Z.of_nat (seq 1 (List.length clients))
    /\ Forall (fun c => Clients.name c <> "" /\ Clients.type c <> ""
                        /\ Clients.phone c <> "" /\ Clients.address c <> ""
                        /\ Clients.email c <> ""
                        /\ Clients.getClientNameById (Clients.id c) clients
                           = Clients.name c) clients
    /\ forall clientId,
         (clientId <= 0 \/ Z.of_nat (List.length clients) < clientId) ->
         Clients.getClientNameById clientId clients = "Client inconnu".
Proof.
  intros requests clients.
  assert (Inv : map Clients.id clients = map Z.of_nat (seq 1 (List.length clients))
                /\ Forall (fun c => Clients.name c <> "" /\ Clients.type c <> ""
                                    /\ Clients.phone c <> "" /\ Clients.address c <> ""
                                    /\ Clients.email c <> "") clients).
  { subst clients.
    apply (clients_run_preserves
             (fun clients =>
                map Clients.id clients = map Z.of_nat (seq 1 (List.length clients))
                /\ Forall (fun c => Clients.name c <> "" /\ Clients.type c <> ""
                                    /\ Clients.phone c <> "" /\ Clients.address c <> ""
                                    /\ Clients.email c <> "") clients));
      [|split; [reflexivity|constructor]].
    intros today b clients [Ids Fields].
    destruct (post_client_stored today b clients)
      as [E|(name & type & phone & address & email & _ & _ & _ & _ & _
             & Nn & Nt & Np & Na & Ne & E)]; rewrite E; [split; assumption|].
    cbn [snd]. split.
    - rewrite length_app, map_app. cbn [List.length map Clients.id].
      rewrite Nat.add_1_r, seq_S, map_app, <- Ids. cbn [map]. do 2 f_equal.
      unfold Clients.lastID. rewrite Ids, largest_of_count.
      destruct (List.length clients); lia.
    - apply Forall_app. split; [exact Fields|]. repeat constructor; assumption. }
  destruct Inv as [Ids Fields].
  assert (D : NoDup (map Clients.id clients)).
  { rewrite Ids. generalize (seq_NoDup (List.length clients) 1).
    generalize (seq 1 (List.length clients)). intros l.
    induction 1 as [|x l NotIn _ IH]; cbn; constructor; [|exact IH].
    intros I. apply in_map_iff in I. destruct I as (y & E & I).
    apply Nat2Z.inj in E. subst y. exact (NotIn I). }
  split; [exact Ids|]. split.
  - rewrite Forall_forall in Fields |- *. intros c I.
    destruct (Fields c I) as (A & B & C & E & F).
    repeat split; try assumption. apply client_name_found; assumption.
  - intros clientId Out. unfold Clients.getClientNameById.
    destruct (find _ clients) as [c|] eqn:F; [|reflexivity].
    exfalso. apply find_some in F. destruct F as [I E]. apply Z.eqb_eq in E.
    assert (I' : In clientId (map Z.of_nat (seq 1 (List.length clients)))).
    { rewrite <- Ids, <- E. apply in_map, I. }
    apply in_map_iff in I'. destruct I' as (n & En & In').
    apply in_seq in In'. lia.
Qed.
